(** * Monitoring-FYP: agents and collector

    A shallow embedding of the three programs of the repository that carry
    its logic:

    - [src/agent_linux.py]: the journal parser [parse_journalctl_events]
      with its identity memory and its two passes (sshd, logind);
    - [src/win11agent.py]: [parse_openssh_message], the two collectors and
      the offset checkpoint [read_file_new_lines];
    - [src/monitoringAgent.py]: [handle_metric], the [/ingest] handler
      and the query of [/api/hosts].

    Python strings are modelled as [string] restricted to ASCII: the
    classes [\s], [\d], [\w], [str.lower], [str.strip] and [splitlines]
    are the ASCII part of the Python ones.  Python floats are kept behind
    an interface ([Float]) holding exactly the operations the collector
    applies to them.  Globals, the file system and the database are
    threaded through the functions that read and write them; what the
    operating system hands over (journal output, event-log records, the
    clock, the request) is an argument.

    Definitions come first: the Python primitives ([Py], [Re]), the three
    programs ([AgentLinux], [Win11Agent], [Collector]), then the rules of
    the specification written from its own words ([MetricTable],
    [AuthItems], [Stated]) to set against the code, then [get_ip]
    ([Host]), the host list ([Dashboard]) and the measures the further
    properties are stated with ([Shape], [Items]).  The properties
    follow, one section per program. *)

From Stdlib Require Import ZArith QArith Qabs Qround String Ascii List Bool Lia.
From Stdlib Require Import DecimalString DecimalN.
From stdpp Require Import gmap strings list sorting.

Local Open Scope string_scope.
Local Open Scope list_scope.
Local Open Scope Z_scope.

(** ** Python string primitives (ASCII) *)

Module Py.

Definition code (c : ascii) : N := N_of_ascii c.

(** [str.isspace] on ASCII: TAB..CR, FS..US and the blank; also [\s]. *)
Definition is_space (c : ascii) : bool :=
  let n := code c in
  ((9 <=? n) && (n <=? 13) || (28 <=? n) && (n <=? 32))%N.

(** [\d] *)
Definition is_digit (c : ascii) : bool :=
  let n := code c in ((48 <=? n) && (n <=? 57))%N.

Definition is_upper (c : ascii) : bool :=
  let n := code c in ((65 <=? n) && (n <=? 90))%N.

Definition is_lower (c : ascii) : bool :=
  let n := code c in ((97 <=? n) && (n <=? 122))%N.

(** [\w] *)
Definition is_word (c : ascii) : bool :=
  is_digit c || is_upper c || is_lower c || Ascii.eqb c "_".

Definition non_space (c : ascii) : bool := negb (is_space c).

Definition lower_char (c : ascii) : ascii :=
  if is_upper c then ascii_of_N (code c + 32) else c.

Definition upper_char (c : ascii) : ascii :=
  if is_lower c then ascii_of_N (code c - 32) else c.

Fixpoint smap (f : ascii -> ascii) (s : string) : string :=
  match s with
  | EmptyString => EmptyString
  | String c s' => String (f c) (smap f s')
  end.

(** [s.lower()], [s.upper()] *)
Definition lower (s : string) : string := smap lower_char s.
Definition upper (s : string) : string := smap upper_char s.

(** Truth value of a string: [if s:] *)
Definition truthy (s : string) : bool :=
  match s with EmptyString => false | _ => true end.

(** [a or b] on strings *)
Definition or_else (a b : string) : string := if truthy a then a else b.

(** Truth value of a string that may be [None]. *)
Definition is_set (o : option string) : bool :=
  match o with Some s => truthy s | None => false end.

Fixpoint lstrip (s : string) : string :=
  match s with
  | String c s' => if is_space c then lstrip s' else s
  | EmptyString => EmptyString
  end.

Fixpoint rstrip (s : string) : string :=
  match s with
  | EmptyString => EmptyString
  | String c s' =>
      match rstrip s' with
      | EmptyString => if is_space c then EmptyString else String c EmptyString
      | r => String c r
      end
  end.

(** [s.strip()] *)
Definition strip (s : string) : string := rstrip (lstrip s).

(** [s.startswith(p)], returning what follows the prefix. *)
Fixpoint after_prefix (p s : string) : option string :=
  match p, s with
  | EmptyString, _ => Some s
  | String a p', String b s' =>
      if Ascii.eqb a b then after_prefix p' s' else None
  | String _ _, EmptyString => None
  end.

(** The same, comparing letters without case ([re.IGNORECASE] on a
    literal). *)
Fixpoint after_prefix_nocase (p s : string) : option string :=
  match p, s with
  | EmptyString, _ => Some s
  | String a p', String b s' =>
      if Ascii.eqb (lower_char a) (lower_char b)
      then after_prefix_nocase p' s' else None
  | String _ _, EmptyString => None
  end.

(** [sub in s] *)
Fixpoint contains (sub s : string) : bool :=
  match after_prefix sub s with
  | Some _ => true
  | None =>
      match s with
      | EmptyString => false
      | String _ s' => contains sub s'
      end
  end.

(** Longest prefix of [s] whose characters satisfy [p], and the rest:
    what a greedy [\S+], [\s+] or [\d+] takes before backtracking. *)
Fixpoint span (p : ascii -> bool) (s : string) : string * string :=
  match s with
  | String c s' =>
      if p c then let '(a, b) := span p s' in (String c a, b)
      else (EmptyString, s)
  | EmptyString => (EmptyString, EmptyString)
  end.

(** Every character of [s] satisfies [p]. *)
Fixpoint all (p : ascii -> bool) (s : string) : bool :=
  match s with
  | String c s' => p c && all p s'
  | EmptyString => true
  end.

(** Line boundaries of [str.splitlines] on ASCII: LF, VT, FF, CR, FS,
    GS, RS (and CR LF as one). *)
Definition is_linebreak (c : ascii) : bool :=
  let n := code c in
  ((10 <=? n) && (n <=? 13) || (28 <=? n) && (n <=? 30))%N.

Definition is_cr (c : ascii) : bool := (code c =? 13)%N.
Definition is_lf (c : ascii) : bool := (code c =? 10)%N.

(** [cur] is the line being read, reversed; [after_cr] tells that the
    previous character was a CR, whose LF belongs to the same break. *)
Fixpoint splitlines_go (cur : list ascii) (after_cr : bool) (s : string)
  : list string :=
  match s with
  | EmptyString =>
      match cur with
      | [] => []
      | _ => [string_of_list_ascii (rev cur)]
      end
  | String c s' =>
      if after_cr && is_lf c then splitlines_go cur false s'
      else if is_linebreak c
           then string_of_list_ascii (rev cur) :: splitlines_go [] (is_cr c) s'
           else splitlines_go (c :: cur) false s'
  end.

(** [s.splitlines()] *)
Definition splitlines (s : string) : list string := splitlines_go [] false s.

(** [str(n)] for an integer. *)
Definition str_of_Z (z : Z) : string :=
  match z with
  | Zneg p => String "-" (NilZero.string_of_uint (N.to_uint (Npos p)))
  | _ => NilZero.string_of_uint (N.to_uint (Z.to_N z))
  end.

(** Digits of an [int()] argument may be grouped by single underscores
    between digits. *)
Fixpoint underscores_ok (prev_digit : bool) (s : string) : bool :=
  match s with
  | EmptyString => prev_digit
  | String c s' =>
      if is_digit c then underscores_ok true s'
      else Ascii.eqb c "_" && prev_digit && underscores_ok false s'
  end.

Fixpoint drop_underscores (s : string) : string :=
  match s with
  | EmptyString => EmptyString
  | String c s' =>
      if Ascii.eqb c "_" then drop_underscores s'
      else String c (drop_underscores s')
  end.

Definition int_unsigned (s : string) : option Z :=
  if underscores_ok false s then
    match NilEmpty.uint_of_string (drop_underscores s) with
    | Some d => Some (Z.of_N (N.of_uint d))
    | None => None
    end
  else None.

(** [int(s)] in base ten; [None] stands for [ValueError]. *)
Definition int (s : string) : option Z :=
  match strip s with
  | String "-" r => option_map Z.opp (int_unsigned r)
  | String "+" r => int_unsigned r
  | r => int_unsigned r
  end.

End Py.

(** ** Pieces of the regular expressions

    The patterns of the agents are matched without backtracking: in each
    of them a greedy repetition is followed by a character outside its
    class, so it takes the whole run or the pattern fails at that
    position. *)

Module Re.

(** [re.search]: the matcher [m] is tried at every position, leftmost
    first. *)
Fixpoint search {A} (m : string -> option A) (s : string) : option A :=
  match m s with
  | Some a => Some a
  | None =>
      match s with
      | EmptyString => None
      | String _ s' => search m s'
      end
  end.

(** One [\d{1,3}\.] of [IP_RE]: the digits are followed by a dot, so
    the group takes the whole run of digits, of length one to three. *)
Definition octet_dot (s : string) : option (string * string) :=
  let '(d, r) := Py.span Py.is_digit s in
  if (1 <=? String.length d)%nat && (String.length d <=? 3)%nat then
    match r with
    | String "." r' => Some (d +:+ ".", r')
    | _ => None
    end
  else None.

(** [IP_RE = (\d{1,3}\.){3}\d{1,3}] at one position: the matched
    text.  The last group is greedy: up to three digits. *)
Definition match_ip (s : string) : option string :=
  '(a, r1) ← octet_dot s;
  '(b, r2) ← octet_dot r1;
  '(c, r3) ← octet_dot r2;
  let '(d, _) := Py.span Py.is_digit r3 in
  if Py.truthy d then Some (a +:+ b +:+ c +:+ substring 0 3 d) else None.

(** [(\S+)]: at least one character, the whole run. *)
Definition group_nonspace (s : string) : option (string * string) :=
  let '(g, r) := Py.span Py.non_space s in
  if Py.truthy g then Some (g, r) else None.

(** [\s+] before a literal that does not start with a blank. *)
Definition spaces (s : string) : option string :=
  let '(w, r) := Py.span Py.is_space s in
  if Py.truthy w then Some r else None.

End Re.

(** ** The Linux agent ([src/agent_linux.py]) *)

Module AgentLinux.

(** One element of the list returned by [parse_journalctl_events]. *)
Record auth_event := {
  type : string;
  username : option string;
  src_ip : option string;
  raw : string
}.

(** The globals [LAST_AUTH_USERNAME] and [LAST_AUTH_IP]. *)
Record memory := {
  LAST_AUTH_USERNAME : option string;
  LAST_AUTH_IP : option string
}.

(** [IP_RE.search(line)] at one position. *)
Definition IP_RE : string -> option string := Re.match_ip.

Definition extract_ip (line : string) : option string :=
  Re.search IP_RE line.

(** [re.search] of [lit(\S+)], giving group 1. *)
Definition search_user (lit line : string) : option string :=
  Re.search (λ s, r ← Py.after_prefix lit s;
                  '(g, _) ← Re.group_nonspace r;
                  Some g) line.

(** [re.search] of [lit(\S+)\s+from], giving group 1. *)
Definition search_user_from (lit line : string) : option string :=
  Re.search (λ s, r ← Py.after_prefix lit s;
                  '(g, r1) ← Re.group_nonspace r;
                  r2 ← Re.spaces r1;
                  _ ← Py.after_prefix "from" r2;
                  Some g) line.

Definition patterns : list (string -> option string) :=
  [ search_user "Failed password for invalid user ";
    search_user_from "Failed password for ";
    search_user_from "Accepted password for ";
    search_user "session opened for user ";
    search_user "session closed for user ";
    search_user "for user " ].

Fixpoint first_match (pats : list (string -> option string)) (line : string)
  : option string :=
  match pats with
  | [] => None
  | pat :: rest =>
      match pat line with
      | Some g => Some g
      | None => first_match rest line
      end
  end.

Definition extract_username (line : string) : option string :=
  first_match patterns line.

(** The [if]/[elif] chain of the sshd pass, on the lowered line. *)
Definition classify (lower : string) : option string :=
  if Py.contains "failed password" lower || Py.contains "invalid user" lower
  then Some "failed_login"
  else if Py.contains "accepted password" lower
          || Py.contains "accepted publickey" lower
  then Some "successful_login"
  else if Py.contains "session closed for user" lower
          || Py.contains "disconnected from" lower
          || Py.contains "received disconnect" lower
          || Py.contains "session closed" lower
  then Some "logout"
  else None.

(** State of the sshd loop. *)
Record ssh_state := {
  mem : memory;
  seen_raw : gset string;
  saw_sshd_logout : bool;
  events : list auth_event
}.

Definition is_login (ev_type : string) : bool :=
  String.eqb ev_type "successful_login" || String.eqb ev_type "failed_login".

Definition is_logout (ev_type : string) : bool := String.eqb ev_type "logout".

(** Lines 159-163: the memory after a record of kind [ev_type]. *)
Definition remember (ev_type : string) (user ip : option string) (m : memory)
  : memory :=
  if is_login ev_type then
    {| LAST_AUTH_USERNAME := if Py.is_set user then user else LAST_AUTH_USERNAME m;
       LAST_AUTH_IP := if Py.is_set ip then ip else LAST_AUTH_IP m |}
  else m.

(** Lines 167-170: a field of a logout record. *)
Definition inherit (own last : option string) : option string :=
  if negb (Py.is_set own) && Py.is_set last then last else own.

(** Body of [for line in ssh_lines]. *)
Definition ssh_step (st : ssh_state) (line : string) : ssh_state :=
  if decide (line ∈ seen_raw st) then st
  else
    let seen := {[line]} ∪ seen_raw st in
    match classify (Py.lower line) with
    | None =>
        {| mem := mem st; seen_raw := seen;
           saw_sshd_logout := saw_sshd_logout st; events := events st |}
    | Some ev_type =>
        let user := extract_username line in
        let ip := extract_ip line in
        let m := remember ev_type user ip (mem st) in
        let out := is_logout ev_type in
        let user' := if out then inherit user (LAST_AUTH_USERNAME m) else user in
        let ip' := if out then inherit ip (LAST_AUTH_IP m) else ip in
        {| mem := m; seen_raw := seen;
           saw_sshd_logout := out || saw_sshd_logout st;
           events := events st ++
             [{| type := ev_type; username := user'; src_ip := ip'; raw := line |}] |}
    end.

Definition ssh_pass (st : ssh_state) (ssh_lines : list string) : ssh_state :=
  fold_left ssh_step ssh_lines st.

(** Lines 108, 109 and 132: the state in which the sshd loop starts. *)
Definition ssh_start (m : memory) : ssh_state :=
  {| mem := m; seen_raw := ∅; saw_sshd_logout := false; events := [] |}.

(** Lines 203-208: the event the logind loop appends for a line. *)
Definition logind_event (m : memory) (line : string) : auth_event :=
  {| type := "logout"; username := LAST_AUTH_USERNAME m;
     src_ip := LAST_AUTH_IP m; raw := line |}.

(** [\bsession\s+(\d+)\b] at one position whose left neighbour is not a
    word character; the digits are the whole run and are followed by a
    non-word character or the end. *)
Definition match_session (s : string) : option string :=
  r ← Py.after_prefix "session" s;
  r1 ← Re.spaces r;
  let '(d, r2) := Py.span Py.is_digit r1 in
  if Py.truthy d then
    match r2 with
    | EmptyString => Some d
    | String c _ => if Py.is_word c then None else Some d
    end
  else None.

Fixpoint search_session (prev_word : bool) (s : string) : option string :=
  match (if prev_word then None else match_session s) with
  | Some g => Some g
  | None =>
      match s with
      | EmptyString => None
      | String c s' => search_session (Py.is_word c) s'
      end
  end.

(** [m.group(1) if m else None] for the lowered line. *)
Definition session_id (lower : string) : option string :=
  search_session false lower.

(** The test of line 194. *)
Definition logind_logout (lower : string) : bool :=
  Py.contains "session" lower
  && (Py.contains "logged out" lower || Py.contains "removed" lower
      || Py.contains "closed" lower).

(** State of the logind loop; the memory is only read there. *)
Record logind_state := {
  l_seen_raw : gset string;
  seen_sessions : gset string;
  l_events : list auth_event
}.

Definition known_session (sess_id : option string) (seen : gset string) : bool :=
  match sess_id with
  | Some i => Py.truthy i && bool_decide (i ∈ seen)
  | None => false
  end.

Definition add_session (sess_id : option string) (seen : gset string)
  : gset string :=
  match sess_id with
  | Some i => if Py.truthy i then {[i]} ∪ seen else seen
  | None => seen
  end.

(** Body of [for line in logind_lines]. *)
Definition logind_step (m : memory) (st : logind_state) (line : string)
  : logind_state :=
  if decide (line ∈ l_seen_raw st) then st
  else
    let seen := {[line]} ∪ l_seen_raw st in
    let lower := Py.lower line in
    if logind_logout lower then
      let sess_id := session_id lower in
      if known_session sess_id (seen_sessions st) then
        {| l_seen_raw := seen; seen_sessions := seen_sessions st;
           l_events := l_events st |}
      else
        {| l_seen_raw := seen;
           seen_sessions := add_session sess_id (seen_sessions st);
           l_events := l_events st ++ [logind_event m line] |}
    else
      {| l_seen_raw := seen; seen_sessions := seen_sessions st;
         l_events := l_events st |}.

Definition logind_pass (m : memory) (st : logind_state)
    (logind_lines : list string) : logind_state :=
  fold_left (logind_step m) logind_lines st.

(** [parse_journalctl_events] from line 132 on: the two lists of lines
    are those gathered from the journal, the memory is threaded. *)
Definition parse_lines (ssh_lines logind_lines : list string) (m : memory)
  : list auth_event * memory :=
  let st := ssh_pass (ssh_start m) ssh_lines in
  if negb (saw_sshd_logout st) then
    let lst := logind_pass (mem st)
                 {| l_seen_raw := seen_raw st; seen_sessions := ∅;
                    l_events := events st |} logind_lines in
    (l_events lst, mem st)
  else (events st, mem st).

(** [[ln for ln in out.strip().splitlines() if ln.strip()]] *)
Definition nonblank_lines (out : string) : list string :=
  List.filter (λ ln, Py.truthy (Py.strip ln)) (Py.splitlines (Py.strip out)).

(** What the three [journalctl] calls returned for the window; [None]
    when the call raised. *)
Record journal := {
  unit_ssh : option string;
  unit_sshd : option string;
  tag_logind : option string
}.

Definition lines_of (out : option string) : list string :=
  match out with Some o => nonblank_lines o | None => [] end.

Definition parse_journalctl_events (j : journal) (m : memory)
  : list auth_event * memory :=
  parse_lines (lines_of (unit_ssh j) ++ lines_of (unit_sshd j))
              (lines_of (tag_logind j)) m.

End AgentLinux.

(** ** The Windows agent ([src/win11agent.py]) *)

Module Win11Agent.

(** One element of the lists the collectors return. *)
Record auth_event := {
  type : string;
  src_ip : option string;
  username : option string;
  timestamp : string;
  raw : string
}.

(** [IP_RE.search(msg)] at one position. *)
Definition IP_RE : string -> option string := Re.match_ip.

(** [USER_IP_RE = for\s+(\S+)\s+from\s+((\d{1,3}\.){3}\d{1,3})], without
    case, at one position: groups 1 and 2.  Each [\s+] and the [\S+] are
    followed by a character of the other class, so each takes its whole
    run. *)
Definition USER_IP_RE (s : string) : option (string * string) :=
  r ← Py.after_prefix_nocase "for" s;
  r1 ← Re.spaces r;
  '(user, r2) ← Re.group_nonspace r1;
  r3 ← Re.spaces r2;
  r4 ← Py.after_prefix_nocase "from" r3;
  r5 ← Re.spaces r4;
  ip ← Re.match_ip r5;
  Some (user, ip).

Definition parse_openssh_message (msg : string)
  : option (string * option string * option string) :=
  let lower := Py.lower msg in
  let etype :=
    if Py.contains "failed password" lower || Py.contains "invalid user" lower
    then Some "failed_login"
    else if Py.contains "accepted password" lower
            || Py.contains "accepted publickey" lower
    then Some "successful_login"
    else if Py.contains "disconnected from" lower
            || Py.contains "connection closed" lower
            || Py.contains "session closed" lower
    then Some "logout"
    else None in
  match etype with
  | None => None
  | Some etype =>
      match Re.search USER_IP_RE msg with
      | Some (user, ip) => Some (etype, Some user, Some ip)
      | None => Some (etype, None, Re.search IP_RE msg)
      end
  end.

(** The test of lines 156 and 222:
    [not src_ip or src_ip in ("127.0.0.1", "::1")]. *)
Definition skipped_ip (src_ip : option string) : bool :=
  match src_ip with
  | Some ip => negb (Py.truthy ip) || String.eqb ip "127.0.0.1"
               || String.eqb ip "::1"
  | None => true
  end.

(** A record of the OpenSSH/Operational channel, as [run_ps_json] gives
    it; a missing or null key is [None]. *)
Record row := {
  RecordId : option Z;
  Message : option string;
  TimeCreated : option string
}.

Section Collectors.

(** The clock and the conversion of lines 160-162
    ([fromisoformat], then Oman time); [None] where it raises. *)
Variable now_oman : string.
Variable iso_to_oman : string -> option string.

Definition time_created (tc : option string) : string :=
  match tc with
  | Some t => default now_oman (iso_to_oman (substring 0 19 t))
  | None => now_oman
  end.

(** Body of [for r in rows]; the state is [SEEN_OPENSSH_RECORDS] and
    the list [events]. *)
Definition openssh_step (st : gset Z * list auth_event) (r : row)
  : gset Z * list auth_event :=
  let '(seen, events) := st in
  match RecordId r with
  | None => st
  | Some rid =>
      if decide (rid ∈ seen) then st
      else
        let seen' := {[rid]} ∪ seen in
        let msg := Py.strip (Py.or_else (default "" (Message r)) "") in
        if negb (Py.truthy msg) then (seen', events)
        else
          match parse_openssh_message msg with
          | None => (seen', events)
          | Some (etype, user, ip) =>
              if skipped_ip ip then (seen', events)
              else
                (seen', events ++
                   [{| type := etype; src_ip := ip; username := user;
                       timestamp := time_created (TimeCreated r);
                       raw := msg |}])
          end
  end.

(** [collect_from_openssh_operational]: [rows] is what the event-log
    query returned; the set of seen record ids is threaded. *)
Definition collect_from_openssh_operational (rows : list row)
    (SEEN_OPENSSH_RECORDS : gset Z) : list auth_event * gset Z :=
  let '(seen, events) :=
    fold_left openssh_step rows (SEEN_OPENSSH_RECORDS, []) in
  (events, seen).

(** The file system as the agent uses it: the checkpoint file
    [STATE_FILE] (its text) and the monitored files (their bytes). *)
Record filesystem := {
  state_file : option string;
  files : gmap string string
}.

Definition LOG_PATHS : list string :=
  [ "C:\ProgramData\ssh\logs\sshd.log"; "C:\ProgramData\ssh\sshd.log" ].

(** [f.seek(offset); f.read()] for [0 <= offset]. *)
Fixpoint read_from (offset : Z) (content : string) : string :=
  if offset <=? 0 then content
  else match content with
       | EmptyString => EmptyString
       | String _ rest => read_from (offset - 1) rest
       end.

(** [chunk.decode("utf-8", errors="ignore")] on ASCII text: bytes
    that are not ASCII are left out. *)
Fixpoint decode_ignore (chunk : string) : string :=
  match chunk with
  | EmptyString => EmptyString
  | String c rest =>
      if (Py.code c <? 128)%N then String c (decode_ignore rest)
      else decode_ignore rest
  end.

(** Lines 190-193 and the [seek]: the offset, or [None] where [int]
    or [seek] raises (a text that is no integer, a negative offset,
    one beyond the range of a file position). *)
Definition stored_offset (fs : filesystem) : option Z :=
  offset ← match state_file fs with
           | Some text => Py.int (Py.or_else (Py.strip (Py.or_else text "0")) "0")
           | None => Some 0
           end;
  if (offset <? 0) || (2 ^ 63 <=? offset) then None else Some offset.

Definition read_file_new_lines (path : string) (fs : filesystem)
  : list string * filesystem :=
  match files fs !! path with
  | None => ([], fs)
  | Some content =>
      match stored_offset fs with
      | None => ([], fs)
      | Some offset =>
          let chunk := read_from offset content in
          let new_offset := offset + Z.of_nat (String.length chunk) in
          let fs' := {| state_file := Some (Py.str_of_Z new_offset);
                        files := files fs |} in
          let text := decode_ignore chunk in
          (List.filter Py.truthy (map Py.strip (Py.splitlines text)), fs')
      end
  end.

Definition logfile_events (lines : list string) : list auth_event :=
  flat_map (λ ln,
    match parse_openssh_message ln with
    | None => []
    | Some (etype, user, ip) =>
        if skipped_ip ip then []
        else [{| type := etype; src_ip := ip; username := user;
                 timestamp := now_oman; raw := ln |}]
    end) lines.

Fixpoint first_log (paths : list string) (fs : filesystem)
  : list auth_event * filesystem :=
  match paths with
  | [] => ([], fs)
  | p :: rest =>
      if decide (is_Some (files fs !! p)) then
        let '(lines, fs') := read_file_new_lines p fs in
        (logfile_events lines, fs')
      else first_log rest fs
  end.

Definition collect_from_sshd_logfile (fs : filesystem)
  : list auth_event * filesystem :=
  first_log LOG_PATHS fs.

End Collectors.

End Win11Agent.

(** ** The collector ([src/monitoringAgent.py]) *)

(** The operations the collector applies to Python floats.  Nothing is
    assumed about them, so what is proved holds for IEEE doubles with
    their rounding and their NaN. *)
Class Float (F : Type) := {
  f_ge : F -> F -> bool;        (* [a >= b] *)
  f_sub : F -> F -> F;          (* [a - b] *)
  f_abs : F -> F;               (* [abs(a)] *)
  f_fix1 : F -> string;         (* [f"{a:.1f}"] *)
  f_nonzero : F -> bool;        (* truth value of [a] *)
  f_of_Z : Z -> F               (* the literal [n.0] *)
}.

Module Collector.

(** The exceptions the loop over [auth_events] can raise. *)
Inductive exception := AttributeError.

Inductive exc (A : Type) :=
| Ok (a : A)
| Raise (e : exception).
Arguments Ok {A} a.
Arguments Raise {A} e.

#[export] Instance exc_bind : MBind exc := λ A B k m,
  match m with
  | Ok a => k a
  | Raise e => Raise e
  end.

Section WithFloat.

Context {F : Type} `{Float F}.

Definition API_KEY : string := "CHANGE_ME_SUPER_SECRET".

Definition LOCAL_TI : gmap string string :=
  list_to_map [ ("10.10.1.5", "kali"); ("10.10.1.6", "win11");
                ("10.10.1.10", "server") ].

Definition CPU_TH : F := f_of_Z 80.
Definition MEM_TH : F := f_of_Z 80.
Definition DISK_TH : F := f_of_Z 80.
Definition METRIC_DELTA_RESEND : F := f_of_Z 5.

(** Rows of the three tables.  The columns [id] and [ts] that SQLite
    fills in are left out: [id] is the position in the list. *)
Record metrics_row := {
  m_host : string; m_os : string;
  m_cpu : F; m_mem : F; m_disk : F; m_net_up : F; m_net_down : F;
  m_ip : string
}.

Record event_row := {
  host : string;
  level : string;
  message : string
}.

Record state_row := {
  status : string;
  last_value : option F;
  updated_ts : string
}.

(** The committed database; [metric_state] has the primary key
    [(host, kind)]. *)
Record database := {
  metrics : list metrics_row;
  events : list event_row;
  metric_state : gmap (string * string) state_row
}.

Definition insert_event (d : database) (e : event_row) : database :=
  {| metrics := metrics d; events := events d ++ [e];
     metric_state := metric_state d |}.

Definition insert_metrics (d : database) (r : metrics_row) : database :=
  {| metrics := metrics d ++ [r]; events := events d;
     metric_state := metric_state d |}.

Definition _get_metric_state (d : database) (host kind : string)
  : string * option F :=
  match metric_state d !! (host, kind) with
  | None => ("normal", None)
  | Some r => (status r, last_value r)
  end.

(** [now_utc] is the reading of the clock.  (SQLite stores a NaN as
    NULL; a NaN is never at or above a threshold, so it only reaches a
    row written as normal, whose [last_value] is not read.) *)
Definition _set_metric_state (now_utc : string) (d : database)
    (host kind status : string) (last_value : option F) : database :=
  {| metrics := metrics d; events := events d;
     metric_state :=
       <[(host, kind) := {| status := status; last_value := last_value;
                            updated_ts := now_utc |}]> (metric_state d) |}.

Definition metric_msg (kind what host host_ip : string) (value : F) : string :=
  Py.upper kind +:+ what +:+ host +:+ " (" +:+ host_ip +:+ "): "
    +:+ f_fix1 value +:+ "%".

(** [abs(float(value) - float(prev_value)) >= METRIC_DELTA_RESEND] *)
Definition drifted (value prev_value : F) : bool :=
  f_ge (f_abs (f_sub value prev_value)) METRIC_DELTA_RESEND.

Definition handle_metric (now_utc : string) (d : database)
    (host host_ip kind : string) (value threshold : F) : database :=
  let '(prev_status, prev_value) := _get_metric_state d host kind in
  let is_high := f_ge value threshold in
  if is_high && negb (String.eqb prev_status "high") then
    let msg := metric_msg kind " high on " host host_ip value in
    let d := insert_event d {| host := host; level := "critical"; message := msg |} in
    _set_metric_state now_utc d host kind "high" (Some value)
  else if is_high && String.eqb prev_status "high" then
    if match prev_value with
       | None => true
       | Some pv => drifted value pv
       end
    then
      let msg := metric_msg kind " still high on " host host_ip value in
      let d := insert_event d {| host := host; level := "critical"; message := msg |} in
      _set_metric_state now_utc d host kind "high" (Some value)
    else d
  else if negb is_high && String.eqb prev_status "high" then
    let msg := metric_msg kind " back to normal on " host host_ip value in
    let d := insert_event d {| host := host; level := "info"; message := msg |} in
    _set_metric_state now_utc d host kind "normal" (Some value)
  else _set_metric_state now_utc d host kind "normal" (Some value).

#[local] Set Warnings "-register-all".

(** JSON values as [json.loads] gives them; a dict is the list of its
    items, with distinct keys. *)
Inductive json :=
| JNull
| JBool (b : bool)
| JInt (z : Z)
| JFloat (f : F)
| JStr (s : string)
| JList (l : list json)
| JDict (items : list (string * json)).

(** Truth value of a JSON value. *)
Definition truthy (v : json) : bool :=
  match v with
  | JNull => false
  | JBool b => b
  | JInt z => negb (z =? 0)
  | JFloat f => f_nonzero f
  | JStr s => Py.truthy s
  | JList l => match l with [] => false | _ => true end
  | JDict l => match l with [] => false | _ => true end
  end.

Fixpoint lookup_item (key : string) (items : list (string * json))
  : option json :=
  match items with
  | [] => None
  | (k, v) :: rest => if String.eqb k key then Some v else lookup_item key rest
  end.

(** [evt.get(key)]: only a dict has the method. *)
Definition get (evt : json) (key : string) : exc json :=
  match evt with
  | JDict items => Ok (default JNull (lookup_item key items))
  | _ => Raise AttributeError
  end.

(** [(v or d)] followed by a method of [str]. *)
Definition or_str (v : json) (d : string) : exc string :=
  if truthy v then
    match v with
    | JStr s => Ok s
    | _ => Raise AttributeError
    end
  else Ok d.

(** The readings of the clock during one request. *)
Record clock := {
  utc_now : string;     (* [datetime.utcnow()], formatted *)
  oman_now : string     (* [datetime.now(OMAN_TZ)], formatted *)
}.

Definition level_verb (etype : string) : string * string :=
  if String.eqb etype "successful_login" then ("critical", "Successful SSH login")
  else if String.eqb etype "failed_login" then ("warning", "Failed SSH login")
  else if String.eqb etype "logout" then ("warning", "SSH logout")
  else ("info", "Auth event (" +:+ etype +:+ ")").

(** Body of [for evt in auth_events]: the row to insert, [None] on
    [continue]. *)
Definition map_event (clk : clock) (host host_ip : string) (evt : json)
  : exc (option event_row) :=
  ty ← get evt "type";
  ty ← or_str ty "";
  let etype := Py.strip (Py.lower ty) in
  if negb (Py.truthy etype) then Ok None
  else
    ip ← get evt "src_ip";
    ip ← or_str ip "unknown";
    let attacker_ip := Py.strip ip in
    let status_tag :=
      if decide (is_Some (LOCAL_TI !! attacker_ip)) then "(Local)" else "(TI)" in
    let event_time := oman_now clk in
    let '(level, verb) := level_verb etype in
    let level_tag := Py.upper level in
    let msg := "[" +:+ level_tag +:+ "] " +:+ status_tag +:+ " " +:+ verb +:+ " "
               +:+ "from " +:+ attacker_ip +:+ " (attacker_user) "
               +:+ "at " +:+ event_time +:+ " "
               +:+ "to ip " +:+ host_ip +:+ " (target_user)" in
    Ok (Some {| host := host; level := level; message := msg |}).

Fixpoint auth_loop (clk : clock) (host host_ip : string)
    (auth_events : list json) (d : database) : exc database :=
  match auth_events with
  | [] => Ok d
  | evt :: rest =>
      r ← map_event clk host host_ip evt;
      auth_loop clk host host_ip rest
        (match r with Some e => insert_event d e | None => d end)
  end.

(** The three calls of [handle_metric]. *)
Definition alerts (clk : clock) (host host_ip : string) (cpu mem disk : F)
    (d : database) : database :=
  let d := handle_metric (utc_now clk) d host host_ip "cpu" cpu CPU_TH in
  let d := handle_metric (utc_now clk) d host host_ip "mem" mem MEM_TH in
  handle_metric (utc_now clk) d host host_ip "disk" disk DISK_TH.

(** A submission once the request body is read: the values of the
    local variables after lines 176-190 (nested shape) or 243-253
    (flat shape).  [auth_events] is the list the loop iterates. *)
Record reading := {
  r_host : string; r_os : string; r_ip : string;
  r_cpu : F; r_mem : F; r_disk : F; r_net_up : F; r_net_down : F
}.

Inductive submission :=
| Nested (r : reading) (auth_events : list json)
| Flat (r : reading) (evt_msg : option string) (evt_lvl : string).

Record request := {
  x_api_key : option string;    (* [request.headers.get("X-API-Key")] *)
  payload : submission
}.

Inductive response :=
| ok (mode : string)            (* 200 *)
| unauthorized                  (* 401 *)
| server_error.                 (* 500: the handler raised *)

Definition row_of (r : reading) : metrics_row :=
  {| m_host := r_host r; m_os := r_os r; m_cpu := r_cpu r; m_mem := r_mem r;
     m_disk := r_disk r; m_net_up := r_net_up r; m_net_down := r_net_down r;
     m_ip := r_ip r |}.

(** The statements between [db()] and [con.commit()]. *)
Definition transaction (clk : clock) (p : submission) (d : database)
  : exc database :=
  match p with
  | Nested r auth_events =>
      let d := insert_metrics d (row_of r) in
      let d := alerts clk (r_host r) (r_ip r) (r_cpu r) (r_mem r) (r_disk r) d in
      auth_loop clk (r_host r) (r_ip r) auth_events d
  | Flat r evt_msg evt_lvl =>
      let d := insert_metrics d (row_of r) in
      let d := alerts clk (r_host r) (r_ip r) (r_cpu r) (r_mem r) (r_disk r) d in
      Ok (if Py.is_set evt_msg
          then insert_event d {| host := r_host r; level := evt_lvl;
                                 message := default "" evt_msg |}
          else d)
  end.

Definition mode_of (p : submission) : string :=
  match p with Nested _ _ => "meta" | Flat _ _ _ => "flat" end.

(** [ingest]: the response and the database other connections see
    afterwards.  What a handler that raises has written is never
    committed. *)
Definition ingest (clk : clock) (req : request) (d : database)
  : response * database :=
  if negb (bool_decide (x_api_key req = Some API_KEY)) then (unauthorized, d)
  else
    match transaction clk (payload req) d with
    | Ok d' => (ok (mode_of (payload req)), d')
    | Raise _ => (server_error, d)
    end.

End WithFloat.

Arguments json F : clear implicits.
Arguments database F : clear implicits.
Arguments metrics_row F : clear implicits.
Arguments state_row F : clear implicits.
Arguments submission F : clear implicits.
Arguments request F : clear implicits.
Arguments reading F : clear implicits.

End Collector.

(** Exact rational arithmetic as an instance of the interface: it agrees
    with the doubles wherever these compute without rounding, as on the
    small integers of the examples below. *)
Module QFloat.

(** Nearest integer, ties to even. *)
Definition round_even (q : Q) : Z :=
  let n := Qfloor q in
  let r := Qminus q (inject_Z n) in
  match Qcompare r (1 # 2) with
  | Lt => n
  | Gt => n + 1
  | Eq => if Z.even n then n else n + 1
  end.

Definition fix1 (q : Q) : string :=
  let t := round_even (Qmult (Qabs q) (inject_Z 10)) in
  (if Qle_bool 0 q then "" else "-")
    +:+ Py.str_of_Z (t / 10) +:+ "." +:+ Py.str_of_Z (t mod 10).

#[export] Instance Q_float : Float Q := {
  f_ge a b := Qle_bool b a;
  f_sub := Qminus;
  f_abs := Qabs;
  f_fix1 := fix1;
  f_nonzero q := negb (Qeq_bool q 0);
  f_of_Z := inject_Z
}.

End QFloat.

(** ** The transition table of the specification (section 4.4) *)

Module MetricTable.

Section WithFloat.

Context {F : Type} `{Float F}.

(** What the table knows of a [(host, kind)] pair: no row yet, a
    normal row, or a high row with its stored [last_value]. *)
Inductive mstate :=
| Absent
| Normal
| High (last_value : F).

(** The three emissions, with the value that caused them. *)
Inductive notice :=
| Crossing (value : F)      (* critical, "<kind> high on <host>" *)
| StillHigh (value : F)     (* critical, "<kind> still high" *)
| Recovery (value : F).     (* info, "<kind> back to normal" *)

(** The resend delta, 5.0, and the test that a value deviates from the
    stored one by at least that much. *)
Definition resend_delta : F := f_of_Z 5.

Definition deviates (value last_value : F) : bool :=
  f_ge (f_abs (f_sub value last_value)) resend_delta.

(** One row of the table: the emission, if any, and the next state. *)
Definition step (threshold : F) (s : mstate) (value : F)
  : list notice * mstate :=
  let is_high := f_ge value threshold in
  match s with
  | High last_value =>
      if is_high then
        if deviates value last_value
        then ([StillHigh value], High value)
        else ([], High last_value)
      else ([Recovery value], Normal)
  | _ =>
      if is_high then ([Crossing value], High value)
      else ([], Normal)
  end.

(** The emissions of a sequence of values, in order. *)
Fixpoint emissions (threshold : F) (s : mstate) (values : list F)
  : list notice :=
  match values with
  | [] => []
  | v :: rest =>
      fst (step threshold s v) ++ emissions threshold (snd (step threshold s v)) rest
  end.

Fixpoint final (threshold : F) (s : mstate) (values : list F) : mstate :=
  match values with
  | [] => s
  | v :: rest => final threshold (snd (step threshold s v)) rest
  end.

(** The alert record of an emission. *)
Definition record (host host_ip kind : string) (n : notice)
  : Collector.event_row :=
  match n with
  | Crossing v =>
      {| Collector.host := host; Collector.level := "critical";
         Collector.message :=
           Collector.metric_msg kind " high on " host host_ip v |}
  | StillHigh v =>
      {| Collector.host := host; Collector.level := "critical";
         Collector.message :=
           Collector.metric_msg kind " still high on " host host_ip v |}
  | Recovery v =>
      {| Collector.host := host; Collector.level := "info";
         Collector.message :=
           Collector.metric_msg kind " back to normal on " host host_ip v |}
  end.

(** The table's view of the stored row; [None] for a row that
    [handle_metric] never writes (a high row without value, a status
    that is neither word). *)
Definition view (d : Collector.database F) (host kind : string)
  : option mstate :=
  match Collector.metric_state d !! (host, kind) with
  | None => Some Absent
  | Some r =>
      if String.eqb (Collector.status r) "high" then
        match Collector.last_value r with
        | Some v => Some (High v)
        | None => None
        end
      else if String.eqb (Collector.status r) "normal" then Some Normal
      else None
  end.

(** A sequence of [handle_metric] calls for one pair and one
    threshold; each comes with the reading of the clock. *)
Definition evaluations (d : Collector.database F)
    (host host_ip kind : string) (threshold : F)
    (calls : list (string * F)) : Collector.database F :=
  fold_left (λ d c, Collector.handle_metric (fst c) d host host_ip kind
                      (snd c) threshold) calls d.

End WithFloat.

Arguments mstate F : clear implicits.
Arguments notice F : clear implicits.

End MetricTable.

(** ** What the loop over [auth_events] does with its items *)

Module AuthItems.

Section WithFloat.

Context {F : Type} `{Float F}.

(** The alert rows of the items of a batch, in order. *)
Definition alert_rows (clk : Collector.clock) (host host_ip : string)
    (auth_events : list (Collector.json F)) : list Collector.event_row :=
  flat_map (λ evt,
    match Collector.map_event clk host host_ip evt with
    | Collector.Ok (Some row) => [row]
    | _ => []
    end) auth_events.

(** An item without a type: an object whose ["type"] is missing,
    null or otherwise false, or a string that is empty once lowered
    and stripped. *)
Definition untyped (evt : Collector.json F) : Prop :=
  ∃ items, evt = Collector.JDict items
    ∧ match default Collector.JNull (Collector.lookup_item "type" items) with
      | Collector.JStr s => Py.strip (Py.lower s) = ""
      | v => Collector.truthy v = false
      end.

(** The isolation of a failing item as the specification states it,
    for one nested submission with the right key: if the mapping of an
    item fails, the metrics row, the three metric evaluations and the
    alerts of the other items are committed all the same. *)
Definition claimed_isolation (clk : Collector.clock)
    (r : Collector.reading F) (auth_events : list (Collector.json F))
    (d : Collector.database F) : Prop :=
  (∃ evt, evt ∈ auth_events
          ∧ ∃ e, Collector.map_event clk (Collector.r_host r)
                   (Collector.r_ip r) evt = Collector.Raise e) →
  let d1 := Collector.alerts clk (Collector.r_host r) (Collector.r_ip r)
              (Collector.r_cpu r) (Collector.r_mem r) (Collector.r_disk r)
              (Collector.insert_metrics d (Collector.row_of r)) in
  let d' := snd (Collector.ingest clk
                   {| Collector.x_api_key := Some Collector.API_KEY;
                      Collector.payload := Collector.Nested r auth_events |} d) in
  Collector.metrics d' = Collector.metrics d ++ [Collector.row_of r]
  ∧ Collector.events d' =
      Collector.events d1
      ++ alert_rows clk (Collector.r_host r) (Collector.r_ip r) auth_events
  ∧ Collector.metric_state d' = Collector.metric_state d1.

End WithFloat.

End AuthItems.

(** ** The rules of the specification, in its own words *)

Module Stated.

(** Whole-line dedup: a line seen verbatim earlier in the window is
    dropped. *)
Fixpoint unseen (seen : gset string) (lines : list string) : list string :=
  match lines with
  | [] => []
  | ln :: rest =>
      if bool_decide (ln ∈ seen) then unseen seen rest
      else ln :: unseen ({[ln]} ∪ seen) rest
  end.

(** The session identifier a line embeds: the digits of its first
    token [session <digits>]. *)
Definition session_of (line : string) : option string :=
  AgentLinux.session_id (Py.lower line).

(** A logout line of the session manager. *)
Definition session_logout (line : string) : bool :=
  AgentLinux.logind_logout (Py.lower line).

(** Session-level dedup: only the first line per session identifier is
    kept; [ids] are the identifiers met so far. *)
Fixpoint first_per_session (ids : gset string) (lines : list string)
  : list string :=
  match lines with
  | [] => []
  | ln :: rest =>
      match session_of ln with
      | Some i =>
          if bool_decide (i ∈ ids) then first_per_session ids rest
          else ln :: first_per_session ({[i]} ∪ ids) rest
      | None => ln :: first_per_session ids rest
      end
  end.

(** The logout lines of a list that embed a session identifier. *)
Definition session_lines (lines : list string) : list string :=
  List.filter (λ ln, session_logout ln && bool_decide (is_Some (session_of ln)))
    lines.

(** The session-level dedup as the specification states it, for one
    window: with no logout from sshd, the events of the logind pass for
    lines embedding a session identifier are the first logout line of
    each identifier, as the logind source lists them. *)
Definition claimed_session_dedup (ssh_lines logind_lines : list string)
    (m : AgentLinux.memory) : Prop :=
  let st := AgentLinux.ssh_pass (AgentLinux.ssh_start m) ssh_lines in
  (∀ e, e ∈ AgentLinux.events st → AgentLinux.type e ≠ "logout") →
  session_lines
    (map AgentLinux.raw
       (drop (length (AgentLinux.events st))
             (fst (AgentLinux.parse_lines ssh_lines logind_lines m))))
  = first_per_session ∅ (session_lines logind_lines).

(** An event of the Windows agent names a peer: an address that is
    present and is neither of the two loopback literals. *)
Definition names_peer (e : Win11Agent.auth_event) : Prop :=
  ∃ ip, Win11Agent.src_ip e = Some ip
        ∧ ip ≠ "" ∧ ip ≠ "127.0.0.1" ∧ ip ≠ "::1".

(** No address was extracted, or one of the two loopback literals. *)
Definition absent_or_loopback (src_ip : option string) : Prop :=
  src_ip = None ∨ src_ip = Some "127.0.0.1" ∨ src_ip = Some "::1".

(** The kind markers of the classifier, by kind. *)
Definition failed_markers : list string :=
  [ "failed password"; "invalid user" ].
Definition accepted_markers : list string :=
  [ "accepted password"; "accepted publickey" ].
Definition logout_markers : list string :=
  [ "session closed for user"; "disconnected from"; "received disconnect";
    "session closed" ].

(** The line contains one of the markers, letter case apart. *)
Definition has_marker (markers : list string) (line : string) : bool :=
  existsb (λ mk, Py.contains mk (Py.lower line)) markers.

(** The identity memory holds no empty string: it starts as [None],
    [None] and is only assigned what [\S+] or [IP_RE] matched. *)
Definition mem_ok_field (o : option string) : Prop := o ≠ Some "".

Definition mem_ok (m : AgentLinux.memory) : Prop :=
  mem_ok_field (AgentLinux.LAST_AUTH_USERNAME m)
  ∧ mem_ok_field (AgentLinux.LAST_AUTH_IP m).

(** The flag [saw_sshd_logout] tells whether a logout is among the
    events. *)
Definition flag_ok (st : AgentLinux.ssh_state) : Prop :=
  AgentLinux.saw_sshd_logout st
  = existsb (λ e, AgentLinux.is_logout (AgentLinux.type e)) (AgentLinux.events st).

(** The field of a record if it carries one, the remembered one
    otherwise. *)
Definition or_last (own last : option string) : option string :=
  match own with Some _ => own | None => last end.

End Stated.

(** ** Sample inputs *)

Module Samples.

Import Collector QFloat.

Definition LF : string := String "010" EmptyString.

(** A login of alice, then a logout line that names nobody.  On a host
    where [sshd] is an alias of the unit [ssh] both queries return the
    same text. *)
Definition alice_login : string :=
  "host sshd[811]: Accepted password for alice from 10.0.0.5 port 51122 ssh2".
Definition bare_logout : string := "host sshd[811]: session closed".

Definition alice_journal : AgentLinux.journal :=
  {| AgentLinux.unit_ssh := Some (alice_login +:+ LF +:+ bare_logout +:+ LF);
     AgentLinux.unit_sshd := Some (alice_login +:+ LF +:+ bare_logout +:+ LF);
     AgentLinux.tag_logind := Some "" |}.

(** The two lines logind prints for the end of session 42; the query of
    the unit [ssh] failed. *)
Definition session_42_journal : AgentLinux.journal :=
  {| AgentLinux.unit_ssh := None;
     AgentLinux.unit_sshd := Some "";
     AgentLinux.tag_logind :=
       Some ("Session 42 logged out" +:+ LF +:+ "Removed session 42." +:+ LF) |}.

Definition blank : AgentLinux.memory :=
  {| AgentLinux.LAST_AUTH_USERNAME := None; AgentLinux.LAST_AUTH_IP := None |}.

(** A snapshot with the processor at 90%. *)
Definition busy : reading Q :=
  {| r_host := "web1"; r_os := "linux"; r_ip := "10.10.1.5";
     r_cpu := 90 # 1; r_mem := 40 # 1; r_disk := 55 # 1;
     r_net_up := 1000 # 1; r_net_down := 2000 # 1 |}.

Definition noon : clock :=
  {| utc_now := "2025-01-01 08:00:00"; oman_now := "2025-01-01 12:00:00" |}.

Definition failed_login_item : json Q :=
  JDict [ ("type", JStr "failed_login"); ("src_ip", JStr "10.0.0.9") ].

(** An item whose type is a number, which has no method [lower]. *)
Definition numeric_type_item : json Q :=
  JDict [ ("type", JInt 7); ("src_ip", JStr "10.0.0.9") ].

(** An item without type. *)
Definition untyped_item : json Q := JDict [ ("src_ip", JStr "10.0.0.9") ].

Definition empty_db : database Q :=
  {| metrics := []; events := []; metric_state := ∅ |}.

(** The processor of web1 is high since 82%. *)
Definition high_row : state_row Q :=
  {| status := "high"; last_value := Some (82 # 1);
     updated_ts := "2025-01-01 07:59:55" |}.

Definition high_db : database Q :=
  {| metrics := []; events := [];
     metric_state := {[ ("web1", "cpu") := high_row ]} |}.

Definition signed (items : list (json Q)) : request Q :=
  {| x_api_key := Some API_KEY; payload := Nested busy items |}.

End Samples.

(** ** The address of the host ([get_ip], both agents) *)

Module Host.

(** The address families [psutil] reports. *)
Inductive family := AF_INET | AF_INET6 | AF_LINK.

(** A [snicaddr]; only these two fields are read. *)
Record snicaddr := {
  fam : family;
  address : string
}.

Definition is_inet (f : family) : bool :=
  match f with AF_INET => true | _ => false end.

(** [a.family == socket.AF_INET and not a.address.startswith("127.")] *)
Definition usable (a : snicaddr) : bool :=
  is_inet (fam a)
  && negb (bool_decide (is_Some (Py.after_prefix "127." (address a)))).

(** [for a in lst]: the address returned, if one is. *)
Fixpoint scan (lst : list snicaddr) : option string :=
  match lst with
  | [] => None
  | a :: rest => if usable a then Some (address a) else scan rest
  end.

(** [for iface, lst in addrs.items()] *)
Fixpoint scan_all (items : list (string * list snicaddr)) : option string :=
  match items with
  | [] => None
  | (_, lst) :: rest =>
      match scan lst with
      | Some ip => Some ip
      | None => scan_all rest
      end
  end.

(** [get_ip]: [net_if_addrs] is what [psutil.net_if_addrs()] returned,
    the items of the dict in order, or [None] where it raised. *)
Definition get_ip (net_if_addrs : option (list (string * list snicaddr)))
  : string :=
  match net_if_addrs with
  | Some items => default "unknown" (scan_all items)
  | None => "unknown"
  end.

End Host.

(** ** The hosts query of the dashboard ([api_hosts]) *)

Module Dashboard.

Section WithFloat.

Context {F : Type} `{Float F}.

(** [SELECT host, MAX(id) ... GROUP BY host] for one host: the row of
    the host with the greatest id, the last one in the table. *)
Fixpoint max_id_row (host : string) (rows : list (Collector.metrics_row F))
  : option (Collector.metrics_row F) :=
  match rows with
  | [] => None
  | r :: rest =>
      match max_id_row host rest with
      | Some r' => Some r'
      | None => if String.eqb (Collector.m_host r) host then Some r else None
      end
  end.

(** The groups of [GROUP BY host], in the order of [ORDER BY m1.host]:
    text in SQLite's binary collation, the order of the character
    codes. *)
Definition groups (rows : list (Collector.metrics_row F)) : list string :=
  merge_sort String.le (remove_dups (map Collector.m_host rows)).

(** The rows the query of [api_hosts] fetches (lines 277-289), without
    the column [ts]. *)
Definition fetch_hosts (d : Collector.database F)
  : list (Collector.metrics_row F) :=
  omap (λ host, max_id_row host (Collector.metrics d))
       (groups (Collector.metrics d)).

End WithFloat.

End Dashboard.

(** ** Shapes and measures used by the properties below *)

Module Shape.

(** The three kinds of event. *)
Definition kind (type : string) : Prop :=
  type = "failed_login" ∨ type = "successful_login" ∨ type = "logout".




(** A word: not empty and without blank. *)
Definition word (s : string) : Prop :=
  s ≠ "" ∧ Py.all Py.non_space s = true.

(** A single line: no character [splitlines] breaks at. *)
Definition one_line (s : string) : Prop :=
  Py.all (λ c, negb (Py.is_linebreak c)) s = true.

(** The lines of a chunk of a log file, as [read_file_new_lines]
    builds them (lines 203-204). *)
Definition chunk_lines (chunk : string) : list string :=
  List.filter Py.truthy
    (map Py.strip (Py.splitlines (Win11Agent.decode_ignore chunk))).

(** The record ids a poll of the event log brought. *)
Definition ids (rows : list Win11Agent.row) : gset Z :=
  list_to_set (omap Win11Agent.RecordId rows).



(** The sshd loop keeps the raw texts of its events distinct, among the
    lines seen, and of the three kinds. *)
Definition ssh_events_ok (st : AgentLinux.ssh_state) : Prop :=
  NoDup (map AgentLinux.raw (AgentLinux.events st))
  ∧ ∀ e, e ∈ AgentLinux.events st →
      AgentLinux.raw e ∈ AgentLinux.seen_raw st ∧ kind (AgentLinux.type e).

End Shape.

(** ** Auth events the collector cannot map *)

Module Items.

Section WithFloat.

Context {F : Type} `{Float F}.

(** A field on which [(v or d)] is followed by a method of [str] that
    [v] does not have: [v] is true and is no string. *)
Definition bad_field (v : Collector.json F) : bool :=
  Collector.truthy v
  && match v with Collector.JStr _ => false | _ => true end.

(** An item of [auth_events] on which the loop body raises: one that is
    no object, one whose ["type"] is a bad field, or one with a type
    that is not blank whose ["src_ip"] is a bad field. *)
Definition malformed (evt : Collector.json F) : bool :=
  match evt with
  | Collector.JDict items =>
      let ty := default Collector.JNull (Collector.lookup_item "type" items) in
      let ip := default Collector.JNull (Collector.lookup_item "src_ip" items) in
      bad_field ty
      || match ty with
         | Collector.JStr s => Py.truthy (Py.strip (Py.lower s)) && bad_field ip
         | _ => false
         end
  | _ => true
  end.

End WithFloat.

End Items.

(** ** The models at work *)

Example extract_ip_leftmost :
  AgentLinux.extract_ip "peer 1234.5.6.7890 then 10.0.0.5" = Some "234.5.6.789".
Proof. reflexivity. Qed.

Example extract_username_order :
  AgentLinux.extract_username
    "sshd[5]: Failed password for invalid user bob from 10.0.0.9 port 22 ssh2"
  = Some "bob"
  ∧ AgentLinux.extract_username
      "sshd[5]: Accepted publickey for carol from 10.0.0.9 port 22 ssh2" = None.
Proof. split; reflexivity. Qed.

Example session_id_boundaries :
  AgentLinux.session_id "removed session 42." = Some "42"
  ∧ AgentLinux.session_id "new xsession 42" = None
  ∧ AgentLinux.session_id "session 42a closed" = None.
Proof. repeat split; reflexivity. Qed.

Example parse_openssh_message_groups :
  Win11Agent.parse_openssh_message
    "Accepted password FOR alice  from 10.0.0.5 port 22 ssh2"
  = Some ("successful_login", Some "alice", Some "10.0.0.5")
  ∧ Win11Agent.parse_openssh_message "Connection closed by 127.0.0.1 port 5"
    = Some ("logout", None, Some "127.0.0.1").
Proof. split; reflexivity. Qed.

Example int_forms :
  Py.int " 1_000 " = Some 1000 ∧ Py.int "-12" = Some (-12)
  ∧ Py.int "1__0" = None ∧ Py.int "" = None ∧ Py.int "12a" = None.
Proof. repeat split; reflexivity. Qed.

(** Two polls of a log of 25 bytes with the offset 2 on record: the
    first returns the two lines after the offset and records 25, the
    second returns nothing. *)
Example two_polls :
  let fs := {| Win11Agent.state_file := Some " 2 ";
               Win11Agent.files :=
                 {[ "C:\ProgramData\ssh\sshd.log" :=
                      ("xxAccepted" +:+ String "013" (String "010" "")
                       +:+ "  " +:+ String "010" " Failed x ") ]} |} in
  let first := Win11Agent.read_file_new_lines "C:\ProgramData\ssh\sshd.log" fs in
  fst first = [ "Accepted"; "Failed x" ]
  ∧ Win11Agent.state_file (snd first) = Some "25"
  ∧ fst (Win11Agent.read_file_new_lines "C:\ProgramData\ssh\sshd.log" (snd first))
    = [].
Proof. vm_compute. repeat split; reflexivity. Qed.

(** ** Properties of the Linux agent *)

Section LinuxAgent.

Import AgentLinux.

Lemma search_some {A} (m : string -> option A) (s : string) (a : A) :
  Re.search m s = Some a → ∃ t, m t = Some a.
Proof.
  induction s as [|c s IH]; simpl.
  - destruct (m "") eqn:E; [intros [= <-]; eauto | discriminate].
  - destruct (m (String c s)) eqn:E; [intros [= <-]; eauto | auto].
Qed.

Lemma group_nonspace_truthy s g r :
  Re.group_nonspace s = Some (g, r) → Py.truthy g = true.
Proof.
  unfold Re.group_nonspace. destruct (Py.span Py.non_space s) as [g' r'].
  destruct (Py.truthy g') eqn:E; [intros [= <- _]; exact E | discriminate].
Qed.

Lemma search_user_truthy lit line u :
  search_user lit line = Some u → Py.truthy u = true.
Proof.
  intros Hs. apply search_some in Hs as [t Ht].
  destruct (Py.after_prefix lit t) as [r|]; cbn [mbind option_bind] in Ht;
    [|discriminate].
  destruct (Re.group_nonspace r) as [[g r']|] eqn:E; cbn [mbind option_bind] in Ht;
    [|discriminate].
  injection Ht as <-. eapply group_nonspace_truthy, E.
Qed.

Lemma search_user_from_truthy lit line u :
  search_user_from lit line = Some u → Py.truthy u = true.
Proof.
  intros Hs. apply search_some in Hs as [t Ht].
  destruct (Py.after_prefix lit t) as [r|]; cbn [mbind option_bind] in Ht;
    [|discriminate].
  destruct (Re.group_nonspace r) as [[g r1]|] eqn:E; cbn [mbind option_bind] in Ht;
    [|discriminate].
  destruct (Re.spaces r1) as [r2|]; cbn [mbind option_bind] in Ht; [|discriminate].
  destruct (Py.after_prefix "from" r2); cbn [mbind option_bind] in Ht;
    [|discriminate].
  injection Ht as <-. eapply group_nonspace_truthy, E.
Qed.

Lemma extract_username_truthy line u :
  extract_username line = Some u → Py.truthy u = true.
Proof.
  unfold extract_username, patterns, first_match.
  repeat match goal with
         | |- context [match ?p line with _ => _ end] =>
             let E := fresh "E" in
             destruct (p line) eqn:E;
             [ intros [= <-];
               first [ eapply search_user_truthy, E
                     | eapply search_user_from_truthy, E ] | ]
         end.
  discriminate.
Qed.

Lemma octet_dot_truthy s a r : Re.octet_dot s = Some (a, r) → Py.truthy a = true.
Proof.
  unfold Re.octet_dot. destruct (Py.span Py.is_digit s) as [d r'].
  destruct (_ && _); [|discriminate].
  destruct r' as [|c r'']; [discriminate|].
  destruct (Ascii.eqb c ".") eqn:E.
  - apply Ascii.eqb_eq in E as ->. intros [= <- _]. by destruct d.
  - intros Hm. exfalso. revert Hm E.
    destruct c as [[|] [|] [|] [|] [|] [|] [|] [|]]; simpl; congruence.
Qed.

Lemma match_ip_truthy s ip : Re.match_ip s = Some ip → Py.truthy ip = true.
Proof.
  unfold Re.match_ip.
  destruct (Re.octet_dot s) as [[a r1]|] eqn:Ea; cbn [mbind option_bind];
    [|discriminate].
  destruct (Re.octet_dot r1) as [[b r2]|]; cbn [mbind option_bind]; [|discriminate].
  destruct (Re.octet_dot r2) as [[c r3]|]; cbn [mbind option_bind]; [|discriminate].
  destruct (Py.span Py.is_digit r3) as [d r4].
  destruct (Py.truthy d); [|discriminate].
  intros [= <-]. apply octet_dot_truthy in Ea. by destruct a.
Qed.

Lemma extract_ip_truthy line ip :
  extract_ip line = Some ip → Py.truthy ip = true.
Proof.
  intros Hs. apply search_some in Hs as [t Ht]. eapply match_ip_truthy, Ht.
Qed.


Lemma seen_raw_step st l : seen_raw (ssh_step st l) = {[l]} ∪ seen_raw st.
Proof.
  unfold ssh_step. destruct (decide (l ∈ seen_raw st)) as [Hin|Hin].
  - apply leibniz_equiv. intros x. rewrite elem_of_union, elem_of_singleton.
    split; [auto | intros [->|]; auto].
  - by destruct (classify (Py.lower l)).
Qed.

Lemma seen_raw_pass st ls :
  seen_raw (ssh_pass st ls) = list_to_set ls ∪ seen_raw st.
Proof.
  revert st. induction ls as [|l ls IH]; intros st; unfold ssh_pass in *; simpl.
  - by rewrite (left_id_L ∅ (∪)).
  - rewrite IH, seen_raw_step. by rewrite (assoc_L (∪)), (comm_L (∪) _ {[l]}).
Qed.

Lemma flag_ok_step st l : Stated.flag_ok st → Stated.flag_ok (ssh_step st l).
Proof.
  unfold Stated.flag_ok, ssh_step. intros Hf.
  destruct (decide (l ∈ seen_raw st)); [done|].
  destruct (classify (Py.lower l)) as [k|]; simpl; [|done].
  rewrite existsb_app, Hf. simpl. rewrite orb_false_r. apply orb_comm.
Qed.

Lemma flag_ok_pass st ls : Stated.flag_ok st → Stated.flag_ok (ssh_pass st ls).
Proof.
  revert st. induction ls as [|l ls IH]; intros st Hf; unfold ssh_pass in *;
    simpl; [done|].
  apply IH, flag_ok_step, Hf.
Qed.

Lemma mem_ok_step st l : Stated.mem_ok (mem st) → Stated.mem_ok (mem (ssh_step st l)).
Proof.
  unfold ssh_step. intros Hm.
  destruct (decide (l ∈ seen_raw st)); [done|].
  destruct (classify (Py.lower l)) as [k|]; simpl; [|done].
  unfold remember. destruct (is_login k); [|done].
  destruct Hm as [Hu Hi]. split; simpl; unfold Stated.mem_ok_field in *.
  - destruct (extract_username l) as [[|c u]|]; simpl; congruence.
  - destruct (extract_ip l) as [[|c u]|]; simpl; congruence.
Qed.

Lemma mem_ok_pass st ls : Stated.mem_ok (mem st) → Stated.mem_ok (mem (ssh_pass st ls)).
Proof.
  revert st. induction ls as [|l ls IH]; intros st Hm; unfold ssh_pass in *;
    simpl; [done|].
  apply IH, mem_ok_step, Hm.
Qed.

Lemma remember_field own last :
  (own = None ∨ Py.is_set own = true) →
  (if Py.is_set own then own else last) = Stated.or_last own last.
Proof. intros [->|Hs]; [done|]. rewrite Hs. by destruct own. Qed.

Lemma inherit_field own last :
  (own = None ∨ Py.is_set own = true) → Stated.mem_ok_field last →
  inherit own last = Stated.or_last own last.
Proof.
  unfold inherit, Stated.mem_ok_field.
  intros [->|Hs] Hl; simpl.
  - destruct last as [[|c u]|]; simpl; congruence.
  - rewrite Hs. simpl. destruct own; [done | discriminate].
Qed.

Lemma extract_username_cases l :
  extract_username l = None ∨ Py.is_set (extract_username l) = true.
Proof.
  destruct (extract_username l) eqn:E; [right | by left].
  simpl. eapply extract_username_truthy, E.
Qed.

Lemma extract_ip_cases l : extract_ip l = None ∨ Py.is_set (extract_ip l) = true.
Proof.
  destruct (extract_ip l) eqn:E; [right | by left].
  simpl. eapply extract_ip_truthy, E.
Qed.


(** C4: at every record of a window (the lines [before] it have been
    processed, the record is not a verbatim repeat and is classified),
    a successful_login or failed_login overwrites [LAST_AUTH_USERNAME]
    exactly when it carries a username and [LAST_AUTH_IP] exactly when
    it carries an address, each on its own; a logout leaves the memory
    as it is and is emitted with the remembered username and address
    in the fields it lacks; no record clears a remembered field.  The
    logout without username and address after the login of alice from
    10.0.0.5 is emitted with both. *)
Theorem identity_memory (m : memory) (before : list string)
    (line ev_type : string) :
  Stated.mem_ok m →
  line ∉ before →
  classify (Py.lower line) = Some ev_type →
  let st := ssh_pass (ssh_start m) before in
  let st' := ssh_step st line in
  let user := extract_username line in
  let ip := extract_ip line in
  Stated.mem_ok (mem st')
  ∧ (is_login ev_type = true →
       mem st' =
         {| LAST_AUTH_USERNAME := Stated.or_last user (LAST_AUTH_USERNAME (mem st));
            LAST_AUTH_IP := Stated.or_last ip (LAST_AUTH_IP (mem st)) |})
  ∧ (ev_type = "logout" →
       mem st' = mem st
       ∧ events st' = events st ++
           [{| type := "logout";
               username := Stated.or_last user (LAST_AUTH_USERNAME (mem st));
               src_ip := Stated.or_last ip (LAST_AUTH_IP (mem st));
               raw := line |}])
  ∧ (is_Some (LAST_AUTH_USERNAME (mem st)) → is_Some (LAST_AUTH_USERNAME (mem st')))
  ∧ (is_Some (LAST_AUTH_IP (mem st)) → is_Some (LAST_AUTH_IP (mem st')))
  ∧ parse_journalctl_events Samples.alice_journal Samples.blank
    = ([ {| type := "successful_login"; username := Some "alice";
            src_ip := Some "10.0.0.5"; raw := Samples.alice_login |};
         {| type := "logout"; username := Some "alice";
            src_ip := Some "10.0.0.5"; raw := Samples.bare_logout |} ],
       {| LAST_AUTH_USERNAME := Some "alice"; LAST_AUTH_IP := Some "10.0.0.5" |}).
Proof.
  intros Hm Hnew Hc st st' user ip.
  assert (Hst : Stated.mem_ok (mem st)) by (apply mem_ok_pass, Hm).
  assert (Hfresh : line ∉ seen_raw st).
  { unfold st. rewrite seen_raw_pass. simpl.
    rewrite elem_of_union, elem_of_list_to_set, elem_of_empty. tauto. }
  assert (Hstep : st' =
    let m' := remember ev_type user ip (mem st) in
    let out := is_logout ev_type in
    {| mem := m'; seen_raw := {[line]} ∪ seen_raw st;
       saw_sshd_logout := out || saw_sshd_logout st;
       events := events st ++
         [{| type := ev_type;
             username := if out then inherit user (LAST_AUTH_USERNAME m') else user;
             src_ip := if out then inherit ip (LAST_AUTH_IP m') else ip;
             raw := line |}] |}).
  { unfold st', ssh_step. destruct (decide (line ∈ seen_raw st)); [done|].
    by rewrite Hc. }
  pose proof (extract_username_cases line) as Hu.
  pose proof (extract_ip_cases line) as Hi.
  fold user in Hu. fold ip in Hi.
  assert (Hmem : mem st' = remember ev_type user ip (mem st)) by (by rewrite Hstep).
  refine (conj _ (conj _ (conj _ (conj _ (conj _ _))))).
  - apply mem_ok_step, Hst.
  - intros Hl. rewrite Hmem. unfold remember. rewrite Hl.
    by rewrite !remember_field.
  - intros ->. rewrite Hstep. simpl. split; [done|].
    destruct Hst as [Hsu Hsi]. by rewrite !inherit_field.
  - rewrite Hmem. unfold remember. destruct (is_login ev_type); [simpl|done].
    rewrite remember_field by done. intros [x Hx]. rewrite Hx. by destruct user.
  - rewrite Hmem. unfold remember. destruct (is_login ev_type); [simpl|done].
    rewrite remember_field by done. intros [x Hx]. rewrite Hx. by destruct ip.
  - vm_compute. reflexivity.
Qed.

Lemma identity_memory_witness :
  LAST_AUTH_USERNAME
    (mem (ssh_step (ssh_pass (ssh_start {| LAST_AUTH_USERNAME := Some "bob";
                                           LAST_AUTH_IP := None |})
                      [ "sshd[3]: Connection from 10.0.0.5" ])
            "sshd[3]: Accepted password for alice from 10.0.0.5 port 22 ssh2"))
  = Some "alice".
Proof.
  assert (H1 : Stated.mem_ok {| LAST_AUTH_USERNAME := Some "bob";
                                LAST_AUTH_IP := None |})
    by (split; discriminate).
  assert (H2 : "sshd[3]: Accepted password for alice from 10.0.0.5 port 22 ssh2"
               ∉ [ "sshd[3]: Connection from 10.0.0.5" ]).
  { intros Hin. apply list_elem_of_In in Hin. destruct Hin as [Hin|[]].
    discriminate Hin. }
  pose proof (identity_memory _ _ _ "successful_login" H1 H2 eq_refl) as H.
  cbv zeta in H. destruct H as (_ & Hlogin & _).
  rewrite (Hlogin eq_refl). reflexivity.
Defined.

Lemma saw_logout_iff (m : memory) (ssh_lines : list string) :
  saw_sshd_logout (ssh_pass (ssh_start m) ssh_lines) = true
  ↔ ∃ e, e ∈ events (ssh_pass (ssh_start m) ssh_lines) ∧ type e = "logout".
Proof.
  pose proof (flag_ok_pass (ssh_start m) ssh_lines eq_refl) as Hf.
  unfold Stated.flag_ok in Hf. rewrite Hf, existsb_exists. split.
  - intros (e & Hin & He). exists e. split; [by apply list_elem_of_In|].
    by apply String.eqb_eq.
  - intros (e & Hin & He). exists e. split; [by apply list_elem_of_In|].
    by apply String.eqb_eq.
Qed.

(** C5: in a window where the sshd source produced a logout event, the
    logind block is not entered: the output is exactly the events of
    the sshd pass, the same as with no logind line at all. *)
Theorem sshd_logout_suppresses_logind (m : memory)
    (ssh_lines logind_lines : list string) :
  let st := ssh_pass (ssh_start m) ssh_lines in
  (∃ e, e ∈ events st ∧ type e = "logout") →
  parse_lines ssh_lines logind_lines m = (events st, mem st)
  ∧ parse_lines ssh_lines logind_lines m = parse_lines ssh_lines [] m.
Proof.
  intros st Hex. apply saw_logout_iff in Hex.
  unfold parse_lines, st. rewrite Hex. simpl. done.
Qed.

Lemma sshd_logout_suppresses_logind_witness :
  fst (parse_lines [ "host sshd[9]: Received disconnect from 10.0.0.5 port 4: 11" ]
         [ "host systemd-logind[1]: Session 42 logged out." ]
         {| LAST_AUTH_USERNAME := None; LAST_AUTH_IP := None |})
  = [ {| type := "logout"; username := None; src_ip := Some "10.0.0.5";
         raw := "host sshd[9]: Received disconnect from 10.0.0.5 port 4: 11" |} ].
Proof.
  destruct (sshd_logout_suppresses_logind
              {| LAST_AUTH_USERNAME := None; LAST_AUTH_IP := None |}
              [ "host sshd[9]: Received disconnect from 10.0.0.5 port 4: 11" ]
              [ "host systemd-logind[1]: Session 42 logged out." ]) as [H _].
  - eexists. split; [apply list_elem_of_here | reflexivity].
  - rewrite H. reflexivity.
Defined.

Lemma search_session_some b s g :
  search_session b s = Some g → ∃ t, match_session t = Some g.
Proof.
  revert b. induction s as [|c s IH]; intros b; simpl.
  - destruct b; [discriminate|].
    destruct (match_session "") eqn:E; [intros [= <-]; eauto | discriminate].
  - destruct (if b then None else match_session (String c s)) eqn:E.
    + intros [= <-]. destruct b; [discriminate | eauto].
    + apply IH.
Qed.

Lemma session_id_truthy lower i : session_id lower = Some i → Py.truthy i = true.
Proof.
  intros Hs. apply search_session_some in Hs as [t Ht].
  unfold match_session in Ht.
  destruct (Py.after_prefix "session" t) as [r|]; cbn [mbind option_bind] in Ht;
    [|discriminate].
  destruct (Re.spaces r) as [r1|]; cbn [mbind option_bind] in Ht; [|discriminate].
  destruct (Py.span Py.is_digit r1) as [d r2].
  destruct (Py.truthy d) eqn:E; [|discriminate].
  destruct r2 as [|c r2]; [by injection Ht as <-|].
  destruct (Py.is_word c); [discriminate | by injection Ht as <-].
Qed.


(** The logind loop is the composition of the three rules: whole-line
    dedup, the logout test, session-level dedup. *)
Lemma logind_pass_events m st ls :
  l_events (logind_pass m st ls) =
    l_events st ++ map (logind_event m)
      (Stated.first_per_session (seen_sessions st)
         (List.filter Stated.session_logout (Stated.unseen (l_seen_raw st) ls))).
Proof.
  revert st. induction ls as [|l ls IH]; intros st; unfold logind_pass in *.
  - simpl. by rewrite app_nil_r.
  - cbn [fold_left Stated.unseen]. rewrite IH. clear IH.
    unfold logind_step.
    destruct (decide (l ∈ l_seen_raw st)) as [Hin|Hin].
    + by rewrite (bool_decide_eq_true_2 _ Hin).
    + rewrite (bool_decide_eq_false_2 _ Hin). cbn [List.filter].
      change (Stated.session_logout l) with (logind_logout (Py.lower l)).
      destruct (logind_logout (Py.lower l)); [|done].
      cbn [Stated.first_per_session].
      change (Stated.session_of l) with (session_id (Py.lower l)).
      destruct (session_id (Py.lower l)) as [i|] eqn:Ei.
      * unfold known_session, add_session.
        rewrite (session_id_truthy _ _ Ei). cbn [andb].
        destruct (bool_decide (i ∈ seen_sessions st)); cbn [l_seen_raw seen_sessions l_events].
        -- done.
        -- by rewrite <- app_assoc.
      * cbn [known_session add_session l_seen_raw seen_sessions l_events].
        by rewrite <- app_assoc.
Qed.

Lemma session_lines_first_per_session ids ls :
  Stated.session_lines
    (Stated.first_per_session ids (List.filter Stated.session_logout ls))
  = Stated.first_per_session ids (Stated.session_lines ls).
Proof.
  revert ids. induction ls as [|l ls IH]; intros ids; [done|].
  unfold Stated.session_lines in *. cbn [List.filter].
  destruct (Stated.session_logout l) eqn:El; cbn [andb]; [|apply IH].
  cbn [Stated.first_per_session].
  destruct (Stated.session_of l) as [i|] eqn:Ei.
  - rewrite (bool_decide_eq_true_2 (is_Some (Some i))) by eauto.
    cbn [Stated.first_per_session]. rewrite Ei.
    destruct (bool_decide (i ∈ ids)); [apply IH|].
    cbn [List.filter]. rewrite El, Ei.
    rewrite (bool_decide_eq_true_2 (is_Some (Some i))) by eauto.
    cbn [andb]. f_equal. apply IH.
  - rewrite (bool_decide_eq_false_2 (is_Some None)) by (by intros [? ?]).
    cbn [List.filter]. rewrite El, Ei.
    rewrite (bool_decide_eq_false_2 (is_Some None)) by (by intros [? ?]).
    cbn [andb]. apply IH.
Qed.

Lemma map_raw_logind_event m ls : map raw (map (logind_event m) ls) = ls.
Proof. induction ls as [|l ls IH]; simpl; congruence. Qed.

(** C6 as stated fails where the first logout line of a session is a
    verbatim repeat of an sshd line: the whole-line filter drops it
    before the session is recorded, and the later line of the session
    yields the event. *)
Lemma session_dedup_counterexample :
  ¬ Stated.claimed_session_dedup
      [ "Removed session 42." ]
      [ "Removed session 42."; "Session 42 logged out" ]
      {| LAST_AUTH_USERNAME := None; LAST_AUTH_IP := None |}.
Proof.
  unfold Stated.claimed_session_dedup. intros Hclaim.
  assert (Hno : ∀ e, e ∈ events (ssh_pass (ssh_start
                   {| LAST_AUTH_USERNAME := None; LAST_AUTH_IP := None |})
                   [ "Removed session 42." ]) → type e ≠ "logout").
  { intros e He. vm_compute in He. by apply elem_of_nil in He. }
  specialize (Hclaim Hno). vm_compute in Hclaim. discriminate Hclaim.
Qed.

(** C6, amended: in a window with no logout from sshd, the logind pass
    yields, in order, the logind logout lines not seen verbatim earlier
    in the window, keeping among those that embed the same session
    identifier only the first; so for the lines embedding an
    identifier the events are the first line of each identifier among
    the lines not seen verbatim earlier.  The two lines of session 42
    give exactly one logout event. *)
Theorem logind_session_dedup (m : memory) (ssh_lines logind_lines : list string) :
  let st := ssh_pass (ssh_start m) ssh_lines in
  (∀ e, e ∈ events st → type e ≠ "logout") →
  fst (parse_lines ssh_lines logind_lines m) =
    events st ++ map (logind_event (mem st))
      (Stated.first_per_session ∅
         (List.filter Stated.session_logout
            (Stated.unseen (list_to_set ssh_lines) logind_lines)))
  ∧ Stated.session_lines
      (map raw (drop (length (events st))
                     (fst (parse_lines ssh_lines logind_lines m))))
    = Stated.first_per_session ∅
        (Stated.session_lines
           (Stated.unseen (list_to_set ssh_lines) logind_lines))
  ∧ fst (parse_journalctl_events Samples.session_42_journal m)
    = [ logind_event m "Session 42 logged out" ].
Proof.
  intros st Hno.
  assert (Hsaw : saw_sshd_logout st = false).
  { destruct (saw_sshd_logout st) eqn:E; [|done].
    apply saw_logout_iff in E as (e & He & Ht). by destruct (Hno e He). }
  assert (Hout : fst (parse_lines ssh_lines logind_lines m) =
    events st ++ map (logind_event (mem st))
      (Stated.first_per_session ∅
         (List.filter Stated.session_logout
            (Stated.unseen (list_to_set ssh_lines) logind_lines)))).
  { unfold parse_lines. fold st. rewrite Hsaw. cbn [negb fst].
    rewrite logind_pass_events. cbn [l_events seen_sessions l_seen_raw].
    unfold st at 3. rewrite seen_raw_pass. cbn [ssh_start seen_raw].
    by rewrite (right_id_L ∅ (∪)). }
  split; [exact Hout|]. split.
  - rewrite Hout, drop_app_length, map_raw_logind_event.
    apply session_lines_first_per_session.
  - destruct m as [u i]. vm_compute. reflexivity.
Qed.

Lemma logind_session_dedup_witness :
  map raw (fst (parse_lines
                  [ "host sshd[2]: Server listening on 0.0.0.0 port 22." ]
                  [ "host systemd-logind[1]: Session 7 logged out.";
                    "host systemd-logind[1]: New session 8 of user bob.";
                    "host systemd-logind[1]: Removed session 7." ]
                  {| LAST_AUTH_USERNAME := None; LAST_AUTH_IP := None |}))
  = [ "host systemd-logind[1]: Session 7 logged out." ].
Proof.
  destruct (logind_session_dedup
              {| LAST_AUTH_USERNAME := None; LAST_AUTH_IP := None |}
              [ "host sshd[2]: Server listening on 0.0.0.0 port 22." ]
              [ "host systemd-logind[1]: Session 7 logged out.";
                "host systemd-logind[1]: New session 8 of user bob.";
                "host systemd-logind[1]: Removed session 7." ]) as [H _].
  - intros e He. vm_compute in He. by apply elem_of_nil in He.
  - rewrite H. vm_compute. reflexivity.
Defined.

Lemma ssh_step_classified st l :
  Forall (λ e, classify (Py.lower (raw e)) ≠ None) (events st) →
  Forall (λ e, classify (Py.lower (raw e)) ≠ None) (events (ssh_step st l)).
Proof.
  intros Hst. unfold ssh_step. destruct (decide (l ∈ seen_raw st)); [done|].
  destruct (classify (Py.lower l)) as [k|] eqn:Ek; [|done].
  cbn [events]. apply Forall_app. split; [done|].
  apply Forall_cons. split; [|done]. cbn [raw]. by rewrite Ek.
Qed.

Lemma ssh_pass_classified st ls :
  Forall (λ e, classify (Py.lower (raw e)) ≠ None) (events st) →
  Forall (λ e, classify (Py.lower (raw e)) ≠ None) (events (ssh_pass st ls)).
Proof.
  revert st. induction ls as [|l ls IH]; intros st Hst; unfold ssh_pass in *;
    simpl; [done|].
  apply IH, ssh_step_classified, Hst.
Qed.

Lemma unseen_fresh seen ls x : x ∈ Stated.unseen seen ls → x ∉ seen.
Proof.
  revert seen. induction ls as [|l ls IH]; intros seen; simpl.
  - intros Hx. by apply elem_of_nil in Hx.
  - destruct (bool_decide (l ∈ seen)) eqn:El; [apply IH|].
    apply bool_decide_eq_false in El.
    intros Hx. apply list_elem_of_In in Hx. destruct Hx as [<-|Hx]; [done|].
    apply list_elem_of_In, IH in Hx. intros Hs. apply Hx.
    apply elem_of_union. by right.
Qed.

Lemma first_per_session_subset ids ls x :
  x ∈ Stated.first_per_session ids ls → x ∈ ls.
Proof.
  revert ids. induction ls as [|l ls IH]; intros ids; simpl; [done|].
  destruct (Stated.session_of l) as [i|].
  - destruct (bool_decide (i ∈ ids)).
    + intros Hx. apply list_elem_of_further. by eapply IH.
    + intros Hx. apply list_elem_of_In in Hx. destruct Hx as [<-|Hx].
      * apply list_elem_of_here.
      * apply list_elem_of_further. eapply IH. by apply list_elem_of_In.
  - intros Hx. apply list_elem_of_In in Hx. destruct Hx as [<-|Hx].
    + apply list_elem_of_here.
    + apply list_elem_of_further. eapply IH. by apply list_elem_of_In.
Qed.

(** A line of the sshd source that is not classified is the raw text of
    no event of the window, from either pass. *)
Lemma unclassified_line_silent m ssh_lines logind_lines line e :
  line ∈ ssh_lines →
  classify (Py.lower line) = None →
  e ∈ fst (parse_lines ssh_lines logind_lines m) →
  raw e ≠ line.
Proof.
  intros Hin Hc He.
  pose proof (ssh_pass_classified (ssh_start m) ssh_lines
                (List.Forall_nil _)) as Hcl.
  rewrite Forall_forall in Hcl.
  assert (Hssh : ∀ e', e' ∈ events (ssh_pass (ssh_start m) ssh_lines) → raw e' ≠ line).
  { intros e' He' Heq. apply (Hcl e' He'). by rewrite Heq. }
  unfold parse_lines in He.
  destruct (saw_sshd_logout (ssh_pass (ssh_start m) ssh_lines));
    cbn [negb fst] in He; [by apply Hssh|].
  rewrite logind_pass_events in He. cbn [l_events seen_sessions l_seen_raw] in He.
  apply elem_of_app in He as [He|He]; [by apply Hssh|].
  apply list_elem_of_In, in_map_iff in He as (x & <- & Hx).
  cbn [logind_event raw]. intros ->.
  apply list_elem_of_In, first_per_session_subset, list_elem_of_In in Hx.
  apply filter_In in Hx as [Hx _]. apply list_elem_of_In, unseen_fresh in Hx.
  apply Hx. rewrite seen_raw_pass. apply elem_of_union. left.
  by apply elem_of_list_to_set.
Qed.

(** C7: classification follows the priority failed_login, then
    successful_login, then logout.  A line with a failed-credential
    marker is a failed_login whatever else it contains (so also with the
    markers of the two other kinds, as the line of the last clause), and
    makes the sshd loop emit a failed_login event for it; a line with
    none of the kind markers is not classified, the loop emits no event
    for it, and no event of the window has it as its raw text. *)
Theorem classification_priority (line : string) (st : ssh_state)
    (m : memory) (ssh_lines logind_lines : list string) :
  (Stated.has_marker Stated.failed_markers line = true →
     classify (Py.lower line) = Some "failed_login"
     ∧ (line ∉ seen_raw st →
        events (ssh_step st line) =
          events st ++ [{| type := "failed_login";
                           username := extract_username line;
                           src_ip := extract_ip line; raw := line |}]))
  ∧ (Stated.has_marker Stated.failed_markers line = false →
     Stated.has_marker Stated.accepted_markers line = true →
     classify (Py.lower line) = Some "successful_login")
  ∧ (Stated.has_marker Stated.failed_markers line = false →
     Stated.has_marker Stated.accepted_markers line = false →
     Stated.has_marker Stated.logout_markers line = true →
     classify (Py.lower line) = Some "logout")
  ∧ (Stated.has_marker Stated.failed_markers line = false →
     Stated.has_marker Stated.accepted_markers line = false →
     Stated.has_marker Stated.logout_markers line = false →
     classify (Py.lower line) = None
     ∧ events (ssh_step st line) = events st
     ∧ (line ∈ ssh_lines →
        ∀ e, e ∈ fst (parse_lines ssh_lines logind_lines m) → raw e ≠ line))
  ∧ classify (Py.lower
      "Failed password for root; Accepted password; session closed")
    = Some "failed_login".
Proof.
  unfold Stated.has_marker, Stated.failed_markers, Stated.accepted_markers,
    Stated.logout_markers; simpl existsb.
  assert (Hsilent : classify (Py.lower line) = None → line ∈ ssh_lines →
            ∀ e, e ∈ fst (parse_lines ssh_lines logind_lines m) → raw e ≠ line).
  { intros Hc Hin e He. by eapply unclassified_line_silent. }
  revert Hsilent.
  refine (λ Hsilent, conj _ (conj _ (conj _ (conj _ _)))); [..| reflexivity];
    revert Hsilent; unfold ssh_step, classify;
    destruct (decide (line ∈ seen_raw st));
    destruct (Py.contains "failed password" (Py.lower line));
    destruct (Py.contains "invalid user" (Py.lower line));
    destruct (Py.contains "accepted password" (Py.lower line));
    destruct (Py.contains "accepted publickey" (Py.lower line));
    destruct (Py.contains "session closed for user" (Py.lower line));
    destruct (Py.contains "disconnected from" (Py.lower line));
    destruct (Py.contains "received disconnect" (Py.lower line));
    destruct (Py.contains "session closed" (Py.lower line));
    simpl; try discriminate; intros; repeat split; try done; auto.
Qed.

Lemma classification_priority_witness :
  classify (Py.lower "sshd[7]: Failed password for root from 10.0.0.9; Accepted password")
    = Some "failed_login"
  ∧ classify (Py.lower "sshd[7]: Server listening on 0.0.0.0 port 22.") = None.
Proof.
  split.
  - destruct (classification_priority
                "sshd[7]: Failed password for root from 10.0.0.9; Accepted password"
                (ssh_start {| LAST_AUTH_USERNAME := None; LAST_AUTH_IP := None |})
                {| LAST_AUTH_USERNAME := None; LAST_AUTH_IP := None |} [] [])
      as (Hfailed & _).
    apply Hfailed. reflexivity.
  - destruct (classification_priority
                "sshd[7]: Server listening on 0.0.0.0 port 22."
                (ssh_start {| LAST_AUTH_USERNAME := None; LAST_AUTH_IP := None |})
                {| LAST_AUTH_USERNAME := None; LAST_AUTH_IP := None |} [] [])
      as (_ & _ & _ & Hnone & _).
    apply Hnone; reflexivity.
Defined.

End LinuxAgent.

(** ** Properties of the Windows agent *)

Section WindowsAgent.

Import Win11Agent.

Variable now_oman : string.
Variable iso_to_oman : string -> option string.

Lemma skipped_ip_false o :
  skipped_ip o = false →
  ∃ ip, o = Some ip ∧ ip ≠ "" ∧ ip ≠ "127.0.0.1" ∧ ip ≠ "::1".
Proof.
  destruct o as [ip|]; simpl; [|discriminate].
  rewrite !orb_false_iff, negb_false_iff. intros [[Ht H1] H2].
  exists ip. split; [done|]. split; [|split].
  - intros ->. discriminate Ht.
  - intros ->. discriminate H1.
  - intros ->. discriminate H2.
Qed.

Lemma skipped_ip_true o : Stated.absent_or_loopback o → skipped_ip o = true.
Proof. by intros [->|[->| ->]]. Qed.

Lemma openssh_step_names_peer st r :
  Forall Stated.names_peer (snd st) →
  Forall Stated.names_peer (snd (openssh_step now_oman iso_to_oman st r)).
Proof.
  destruct st as [seen events]. unfold openssh_step. simpl. intros Hev.
  destruct (RecordId r) as [rid|]; [|done].
  destruct (decide (rid ∈ seen)); [done|].
  destruct (negb _); [done|].
  destruct (parse_openssh_message _) as [[[etype user] ip]|]; [|done].
  destruct (skipped_ip ip) eqn:E; [done|]. simpl.
  apply Forall_app. split; [done|]. apply Forall_cons. split; [|done].
  apply skipped_ip_false, E.
Qed.

Lemma openssh_fold_names_peer rows st :
  Forall Stated.names_peer (snd st) →
  Forall Stated.names_peer
    (snd (fold_left (openssh_step now_oman iso_to_oman) rows st)).
Proof.
  revert st. induction rows as [|r rows IH]; intros st Hst; simpl; [done|].
  apply IH, openssh_step_names_peer, Hst.
Qed.

Lemma logfile_events_names_peer lines :
  Forall Stated.names_peer (logfile_events now_oman lines).
Proof.
  induction lines as [|ln lines IH]; simpl; [done|].
  apply Forall_app. split; [|done].
  destruct (parse_openssh_message ln) as [[[etype user] ip]|]; [|done].
  destruct (skipped_ip ip) eqn:E; [done|].
  apply Forall_cons. split; [|done]. apply skipped_ip_false, E.
Qed.

(** C10: every event of the two collectors carries an address, and
    never one of the loopback literals 127.0.0.1 and ::1; a record or a
    log line whose text gives no address, or one of these two, adds no
    event. *)
Theorem windows_events_name_a_peer :
  (∀ rows seen,
     Forall Stated.names_peer
       (fst (collect_from_openssh_operational now_oman iso_to_oman rows seen)))
  ∧ (∀ fs, Forall Stated.names_peer (fst (collect_from_sshd_logfile now_oman fs)))
  ∧ (∀ st r etype user ip,
       parse_openssh_message
         (Py.strip (Py.or_else (default "" (Message r)) "")) = Some (etype, user, ip) →
       Stated.absent_or_loopback ip →
       snd (openssh_step now_oman iso_to_oman st r) = snd st)
  ∧ (∀ before ln after etype user ip,
       parse_openssh_message ln = Some (etype, user, ip) →
       Stated.absent_or_loopback ip →
       logfile_events now_oman (before ++ ln :: after)
       = logfile_events now_oman (before ++ after)).
Proof.
  refine (conj _ (conj _ (conj _ _))).
  - intros rows seen. unfold collect_from_openssh_operational.
    pose proof (openssh_fold_names_peer rows (seen, [])) as Hf.
    destruct (fold_left _ rows (seen, [])) as [seen' events]. simpl in *.
    apply Hf. constructor.
  - intros fs. unfold collect_from_sshd_logfile.
    induction LOG_PATHS as [|p ps IH]; simpl; [constructor|].
    destruct (decide (is_Some (files fs !! p))); [|done].
    destruct (read_file_new_lines p fs) as [lines fs']. simpl.
    apply logfile_events_names_peer.
  - intros [seen events] r etype user ip Hp Hip. unfold openssh_step.
    destruct (RecordId r) as [rid|]; [|done].
    destruct (decide (rid ∈ seen)); [done|].
    destruct (negb _); [done|].
    rewrite Hp, (skipped_ip_true _ Hip). done.
  - intros before ln after etype user ip Hp Hip. unfold logfile_events.
    rewrite !flat_map_app. simpl. by rewrite Hp, (skipped_ip_true _ Hip).
Qed.

(** *** The offset checkpoint *)

Lemma uint_string_digits d : Py.all Py.is_digit (NilEmpty.string_of_uint d) = true.
Proof. induction d; simpl; auto. Qed.

Lemma digits_first_not_sign c s :
  Py.is_digit c = true →
  match String c s with
  | String "-" r => option_map Z.opp (Py.int_unsigned r)
  | String "+" r => Py.int_unsigned r
  | r => Py.int_unsigned r
  end = Py.int_unsigned (String c s).
Proof.
  destruct c as [[|] [|] [|] [|] [|] [|] [|] [|]]; simpl; intros Hd;
    try discriminate Hd; reflexivity.
Qed.

Lemma digit_not_space c : Py.is_digit c = true → Py.is_space c = false.
Proof.
  destruct c as [[|] [|] [|] [|] [|] [|] [|] [|]]; simpl; intros Hd;
    try discriminate Hd; reflexivity.
Qed.

Lemma digit_not_underscore c : Py.is_digit c = true → Ascii.eqb c "_" = false.
Proof.
  destruct c as [[|] [|] [|] [|] [|] [|] [|] [|]]; simpl; intros Hd;
    try discriminate Hd; reflexivity.
Qed.

Lemma rstrip_digits s : Py.all Py.is_digit s = true → Py.rstrip s = s.
Proof.
  induction s as [|c s IH]; simpl; [done|].
  intros [Hc Hs]%andb_true_iff. rewrite (IH Hs).
  destruct s; [|done]. by rewrite (digit_not_space _ Hc).
Qed.

Lemma strip_digits s : Py.all Py.is_digit s = true → Py.strip s = s.
Proof.
  intros Hs. unfold Py.strip.
  assert (Py.lstrip s = s) as ->.
  { destruct s as [|c s]; simpl in *; [done|].
    apply andb_true_iff in Hs as [Hc _]. by rewrite (digit_not_space _ Hc). }
  by apply rstrip_digits.
Qed.

Lemma underscores_ok_digits b s :
  Py.all Py.is_digit s = true → Py.underscores_ok b s = (b || Py.truthy s).
Proof.
  revert b. induction s as [|c s IH]; intros b; simpl.
  - by rewrite orb_false_r.
  - intros [Hc Hs]%andb_true_iff. rewrite Hc, (IH _ Hs). simpl.
    by rewrite orb_true_r.
Qed.

Lemma drop_underscores_digits s :
  Py.all Py.is_digit s = true → Py.drop_underscores s = s.
Proof.
  induction s as [|c s IH]; simpl; [done|].
  intros [Hc Hs]%andb_true_iff.
  by rewrite (digit_not_underscore _ Hc), (IH Hs).
Qed.

Lemma str_of_Z_nonneg n :
  0 ≤ n → ∃ d, d ≠ Decimal.Nil ∧ N.of_uint d = Z.to_N n
               ∧ Py.str_of_Z n = NilEmpty.string_of_uint d.
Proof.
  intros Hn. exists (N.to_uint (Z.to_N n)).
  assert (Hnil : N.to_uint (Z.to_N n) ≠ Decimal.Nil).
  { destruct (Z.to_N n); simpl; [discriminate|].
    apply DecimalPos.Unsigned.to_uint_nonnil. }
  split; [done|]. split; [apply DecimalN.Unsigned.of_to|].
  unfold Py.str_of_Z. destruct n as [|p|p]; [| |lia].
  - reflexivity.
  - unfold NilZero.string_of_uint. by destruct (N.to_uint (Z.to_N (Z.pos p))).
Qed.

(** [int(str(n)) == n], also through [(text or "0").strip() or "0"]. *)
Lemma int_str_of_Z n :
  0 ≤ n →
  Py.int (Py.or_else (Py.strip (Py.or_else (Py.str_of_Z n) "0")) "0") = Some n.
Proof.
  intros Hn. destruct (str_of_Z_nonneg n Hn) as (d & Hd & Hof & ->).
  pose proof (uint_string_digits d) as Hdig.
  assert (Htr : Py.truthy (NilEmpty.string_of_uint d) = true)
    by (by destruct d).
  unfold Py.or_else at 2. rewrite Htr, (strip_digits _ Hdig).
  unfold Py.or_else. rewrite Htr. unfold Py.int. rewrite (strip_digits _ Hdig).
  destruct (NilEmpty.string_of_uint d) as [|c s] eqn:E; [discriminate Htr|].
  rewrite digits_first_not_sign
    by (simpl in Hdig; by apply andb_true_iff in Hdig as [? _]).
  unfold Py.int_unsigned.
  rewrite (underscores_ok_digits _ _ Hdig), Htr, (drop_underscores_digits _ Hdig).
  simpl orb. cbv iota. rewrite <- E, NilEmpty.usu, Hof. f_equal. lia.
Qed.

Lemma read_from_length offset content :
  0 ≤ offset →
  Z.of_nat (String.length content)
  ≤ offset + Z.of_nat (String.length (read_from offset content)).
Proof.
  revert offset. induction content as [|c content IH]; intros offset Ho.
  - simpl. destruct (offset <=? 0); simpl; lia.
  - cbn [read_from]. destruct (offset <=? 0) eqn:E.
    + lia.
    + apply Z.leb_gt in E. specialize (IH (offset - 1)).
      cbn [String.length]. lia.
Qed.

Lemma read_from_end offset content :
  Z.of_nat (String.length content) ≤ offset → read_from offset content = "".
Proof.
  revert offset. induction content as [|c content IH]; intros offset Ho.
  - simpl. by destruct (offset <=? 0).
  - cbn [read_from]. cbn [String.length] in Ho.
    destruct (offset <=? 0) eqn:E; [apply Z.leb_le in E; lia|].
    apply IH. lia.
Qed.

Lemma stored_offset_range fs offset :
  stored_offset fs = Some offset → 0 ≤ offset.
Proof.
  unfold stored_offset.
  destruct (match state_file fs with Some _ => _ | None => _ end) as [o|];
    cbn [mbind option_bind]; [|discriminate].
  destruct ((o <? 0) || (2 ^ 63 <=? o)) eqn:E; [discriminate|].
  intros [= <-]. apply orb_false_iff in E as [E _]. by apply Z.ltb_ge in E.
Qed.

(** C8: a second read of a file, right after a first one and with the
    file as it was, returns no line; a file that does not exist gives
    no line and leaves the file system, so the stored offset, as it
    was. *)
Theorem offset_checkpoint (path : string) (fs : filesystem) :
  fst (read_file_new_lines path (snd (read_file_new_lines path fs))) = []
  ∧ (files fs !! path = None → read_file_new_lines path fs = ([], fs)).
Proof.
  split; [|by unfold read_file_new_lines; intros ->].
  unfold read_file_new_lines at 2.
  destruct (files fs !! path) as [content|] eqn:Ef.
  - destruct (stored_offset fs) as [offset|] eqn:Eo.
    + pose proof (stored_offset_range _ _ Eo) as Hpos.
      pose proof (read_from_length offset content Hpos) as Hlen.
      set (new_offset := offset + Z.of_nat (String.length (read_from offset content))) in *.
      cbn [snd]. unfold read_file_new_lines. cbn [files]. rewrite Ef.
      unfold stored_offset. cbn [state_file].
      rewrite int_str_of_Z by lia. cbn [mbind option_bind].
      destruct ((new_offset <? 0) || (2 ^ 63 <=? new_offset)); [done|].
      by rewrite read_from_end.
    + cbn [snd]. unfold read_file_new_lines. by rewrite Ef, Eo.
  - cbn [snd]. unfold read_file_new_lines. by rewrite Ef.
Qed.

Lemma offset_checkpoint_witness :
  read_file_new_lines "C:\ProgramData\ssh\sshd.log"
    {| state_file := Some "17"; files := ∅ |}
  = ([], {| state_file := Some "17"; files := ∅ |}).
Proof.
  apply (offset_checkpoint "C:\ProgramData\ssh\sshd.log"
           {| state_file := Some "17"; files := ∅ |}).
  reflexivity.
Defined.

End WindowsAgent.

Lemma windows_events_name_a_peer_witness :
  Win11Agent.logfile_events "2025-01-01T12:00:00+04:00"
    [ "Accepted password for alice from 10.0.0.5 port 22 ssh2";
      "Failed password for root from 127.0.0.1 port 22 ssh2";
      "Connection closed by authenticating user bob [preauth]" ]
  = Win11Agent.logfile_events "2025-01-01T12:00:00+04:00"
      [ "Accepted password for alice from 10.0.0.5 port 22 ssh2";
        "Connection closed by authenticating user bob [preauth]" ].
Proof.
  destruct (windows_events_name_a_peer "2025-01-01T12:00:00+04:00" (λ _, None))
    as (_ & _ & _ & Hline).
  apply (Hline [ "Accepted password for alice from 10.0.0.5 port 22 ssh2" ]
           "Failed password for root from 127.0.0.1 port 22 ssh2"
           [ "Connection closed by authenticating user bob [preauth]" ]
           "failed_login" (Some "root") (Some "127.0.0.1")).
  - reflexivity.
  - right. left. reflexivity.
Defined.

(** ** Properties of the collector *)

Section CollectorProperties.

Import Collector QFloat.
Context {F : Type} `{Float F}.


Lemma metrics_handle_metric now (d : database F) host ip kind v th :
  metrics (handle_metric now d host ip kind v th) = metrics d.
Proof.
  unfold handle_metric. destruct (_get_metric_state d host kind) as [ps pv].
  repeat match goal with |- context [if ?b then _ else _] => destruct b end;
    reflexivity.
Qed.

Local Ltac row_written :=
  unfold MetricTable.view;
  cbn [_set_metric_state insert_event metric_state];
  rewrite lookup_insert_eq; reflexivity.

(** One call of [handle_metric] is one row of the table. *)
Lemma handle_metric_step now (d : database F) host ip kind v th s :
  MetricTable.view d host kind = Some s →
  events (handle_metric now d host ip kind v th)
  = events d ++ map (MetricTable.record host ip kind) (fst (MetricTable.step th s v))
  ∧ MetricTable.view (handle_metric now d host ip kind v th) host kind
    = Some (snd (MetricTable.step th s v)).
Proof.
  intros Hv. unfold MetricTable.view in Hv.
  unfold handle_metric, _get_metric_state, MetricTable.step.
  destruct (metric_state d !! (host, kind)) as [r|] eqn:Er.
  - destruct (String.eqb (status r) "high") eqn:Eh.
    + destruct (last_value r) as [lv|] eqn:El; [|discriminate].
      injection Hv as <-.
      change (MetricTable.deviates v lv) with (drifted v lv).
      destruct (f_ge v th); cbn [andb negb].
      * destruct (drifted v lv); cbn [fst snd map]; split;
          [reflexivity | row_written | by rewrite app_nil_r |].
        unfold MetricTable.view. by rewrite Er, Eh, El.
      * split; [reflexivity | row_written].
    + destruct (String.eqb (status r) "normal"); [|discriminate].
      injection Hv as <-.
      destruct (f_ge v th); cbn [andb negb fst snd map]; split;
        [reflexivity | row_written | by rewrite app_nil_r | row_written].
  - injection Hv as <-. change (String.eqb "normal" "high") with false.
    destruct (f_ge v th); cbn [andb negb fst snd map]; split;
      [reflexivity | row_written | by rewrite app_nil_r | row_written].
Qed.


(** A call for another pair leaves the row of this one as it is, so
    the evaluations of other pairs that come in between do not count. *)
Lemma handle_metric_frame now (d : database F) host' ip' kind' v th host kind :
  (host', kind') ≠ (host, kind) →
  MetricTable.view (handle_metric now d host' ip' kind' v th) host kind
  = MetricTable.view d host kind.
Proof.
  intros Hne. unfold MetricTable.view, handle_metric.
  destruct (_get_metric_state d host' kind') as [ps pv].
  repeat match goal with
         | |- context [if ?b then _ else _] => destruct b
         | |- context [match ?o with Some _ => _ | None => _ end] =>
             is_var o; destruct o
         end;
    cbn [_set_metric_state insert_event metric_state];
    rewrite ?lookup_insert_ne by done; reflexivity.
Qed.

Lemma evaluations_table (d : database F) host ip kind th s calls :
  MetricTable.view d host kind = Some s →
  events (MetricTable.evaluations d host ip kind th calls)
  = events d ++ map (MetricTable.record host ip kind)
                    (MetricTable.emissions th s (map snd calls))
  ∧ MetricTable.view (MetricTable.evaluations d host ip kind th calls) host kind
    = Some (MetricTable.final th s (map snd calls)).
Proof.
  revert d s. induction calls as [|[now v] calls IH]; intros d s Hv.
  - simpl. by rewrite app_nil_r.
  - destruct (handle_metric_step now d host ip kind v th s Hv) as [He Hv'].
    destruct (IH _ _ Hv') as [IHe IHv].
    unfold MetricTable.evaluations in *. cbn [fold_left map fst snd].
    cbn [MetricTable.emissions MetricTable.final].
    split; [|exact IHv].
    by rewrite IHe, He, map_app, app_assoc.
Qed.

(** C1: for every sequence of evaluations of one [(host, kind)] pair
    against one threshold, started on a row that is absent or was
    written by [handle_metric], the alerts appended are exactly the
    emissions of the transition table: one critical alert at each value
    at or above the threshold met while the row is absent or normal,
    one more critical alert at each value met while high whose distance
    to the stored [last_value] is at least 5.0, one info alert at each
    value below the threshold met while high, and nothing else; the row
    follows the table.  The values 70, 82, 84, 90, 78 against 80 give
    three alerts: critical at 82, critical at 90, info at 78. *)
Theorem metric_alert_sequence (d : database F) (host host_ip kind : string)
    (threshold : F) (s : MetricTable.mstate F) (calls : list (string * F)) :
  MetricTable.view d host kind = Some s →
  let d' := MetricTable.evaluations d host host_ip kind threshold calls in
  events d' = events d ++ map (MetricTable.record host host_ip kind)
                (MetricTable.emissions threshold s (map snd calls))
  ∧ MetricTable.view d' host kind
    = Some (MetricTable.final threshold s (map snd calls))
  ∧ events (MetricTable.evaluations
              {| metrics := []; events := []; metric_state := ∅ |}
              "web1" "10.10.1.5" "cpu" (80 # 1)%Q
              [ ("12:00:00", 70 # 1); ("12:00:05", 82 # 1); ("12:00:10", 84 # 1);
                ("12:00:15", 90 # 1); ("12:00:20", 78 # 1) ]%Q)
    = [ {| host := "web1"; level := "critical";
           message := "CPU high on web1 (10.10.1.5): 82.0%" |};
        {| host := "web1"; level := "critical";
           message := "CPU still high on web1 (10.10.1.5): 90.0%" |};
        {| host := "web1"; level := "info";
           message := "CPU back to normal on web1 (10.10.1.5): 78.0%" |} ].
Proof.
  intros Hv d'.
  destruct (evaluations_table d host host_ip kind threshold s calls Hv) as [He Hs].
  split; [exact He|]. split; [exact Hs|]. vm_compute. reflexivity.
Qed.

(** C3: a value at or above the threshold, met while the row is high
    and closer than 5.0 to the stored [last_value], changes nothing in
    the database: no alert is appended and the row keeps its status,
    its [last_value] and its [updated_ts]. *)
Theorem small_drift_leaves_row (now : string) (d : database F)
    (host host_ip kind : string) (value threshold : F)
    (r : state_row F) (stored : F) :
  metric_state d !! (host, kind) = Some r →
  status r = "high" →
  last_value r = Some stored →
  f_ge value threshold = true →
  drifted value stored = false →
  handle_metric now d host host_ip kind value threshold = d
  ∧ events (handle_metric now d host host_ip kind value threshold) = events d
  ∧ metric_state (handle_metric now d host host_ip kind value threshold)
      !! (host, kind) = Some r.
Proof.
  intros Hr Hs Hl Hhigh Hdrift.
  assert (Hsame : handle_metric now d host host_ip kind value threshold = d).
  { unfold handle_metric, _get_metric_state.
    rewrite Hr, Hs, Hl, Hhigh, Hdrift. reflexivity. }
  rewrite Hsame. done.
Qed.

(** C9: a request whose [X-API-Key] header is missing or is not the
    key is answered 401 and changes nothing in the database. *)
Theorem unauthorized_no_effect (clk : clock) (req : request F) (d : database F) :
  x_api_key req ≠ Some API_KEY →
  ingest clk req d = (unauthorized, d)
  ∧ metrics (snd (ingest clk req d)) = metrics d
  ∧ events (snd (ingest clk req d)) = events d
  ∧ metric_state (snd (ingest clk req d)) = metric_state d.
Proof.
  intros Hkey.
  assert (Hr : ingest clk req d = (unauthorized, d)).
  { unfold ingest. by rewrite (bool_decide_eq_false_2 _ Hkey). }
  rewrite Hr. done.
Qed.

(** *** The loop over [auth_events] *)

Lemma metrics_alerts clk host ip cpu mem disk (d : database F) :
  metrics (alerts clk host ip cpu mem disk d) = metrics d.
Proof. unfold alerts. by rewrite !metrics_handle_metric. Qed.

Lemma auth_loop_ok clk host ip (evts : list (json F)) (d : database F) :
  (∀ evt, evt ∈ evts → ∃ o, map_event clk host ip evt = Ok o) →
  auth_loop clk host ip evts d
  = Ok {| metrics := metrics d;
          events := events d ++ AuthItems.alert_rows clk host ip evts;
          metric_state := metric_state d |}.
Proof.
  revert d. induction evts as [|evt evts IH]; intros d Hall.
  - destruct d. simpl. by rewrite app_nil_r.
  - destruct (Hall evt) as [o Ho]; [apply list_elem_of_here|].
    cbn [auth_loop]. rewrite Ho. cbn [mbind exc_bind].
    rewrite IH by (intros e He; apply Hall; by apply list_elem_of_further).
    unfold AuthItems.alert_rows. cbn [flat_map]. rewrite Ho.
    destruct o as [row|]; cbn [insert_event metrics events metric_state].
    + by rewrite <- app_assoc.
    + done.
Qed.

Lemma auth_loop_raise clk host ip (evts : list (json F)) (d : database F) :
  (∃ evt, evt ∈ evts ∧ ∃ e, map_event clk host ip evt = Raise e) →
  ∃ e, auth_loop clk host ip evts d = Raise e.
Proof.
  revert d. induction evts as [|evt evts IH]; intros d (bad & Hin & e & Hbad).
  - by apply elem_of_nil in Hin.
  - cbn [auth_loop]. destruct (map_event clk host ip evt) as [o|e'] eqn:Ho.
    + cbn [mbind exc_bind]. apply IH. exists bad. split; [|eauto].
      apply list_elem_of_In in Hin. destruct Hin as [->|Hin].
      * congruence.
      * by apply list_elem_of_In.
    + cbn [mbind exc_bind]. eauto.
Qed.

Lemma untyped_skipped clk host ip (evt : json F) :
  AuthItems.untyped evt → map_event clk host ip evt = Ok None.
Proof.
  intros (items & -> & Hty). unfold map_event, get. cbn [mbind exc_bind].
  destruct (default JNull (lookup_item "type" items)) as [|b|z|f|s|l|l];
    unfold or_str; try (rewrite Hty; cbn [mbind exc_bind]; reflexivity).
  cbn [truthy]. destruct (Py.truthy s); cbn [mbind exc_bind].
  - by rewrite Hty.
  - reflexivity.
Qed.

Lemma alert_rows_without clk host ip (before after : list (json F)) evt :
  map_event clk host ip evt = Ok None →
  AuthItems.alert_rows clk host ip (before ++ evt :: after)
  = AuthItems.alert_rows clk host ip (before ++ after).
Proof.
  intros Hskip. unfold AuthItems.alert_rows.
  rewrite !flat_map_app. cbn [flat_map]. by rewrite Hskip.
Qed.

Lemma ingest_ok clk (r : reading F) (evts : list (json F)) (d : database F) :
  (∀ evt, evt ∈ evts → ∃ o, map_event clk (r_host r) (r_ip r) evt = Ok o) →
  let d1 := alerts clk (r_host r) (r_ip r) (r_cpu r) (r_mem r) (r_disk r)
              (insert_metrics d (row_of r)) in
  ingest clk {| x_api_key := Some API_KEY; payload := Nested r evts |} d =
    (ok "meta",
     {| metrics := metrics d ++ [row_of r];
        events := events d1 ++ AuthItems.alert_rows clk (r_host r) (r_ip r) evts;
        metric_state := metric_state d1 |}).
Proof.
  intros Hall d1. unfold ingest. cbn [x_api_key payload].
  rewrite bool_decide_eq_true_2 by reflexivity. cbn [negb transaction].
  fold d1. rewrite (auth_loop_ok _ _ _ _ _ Hall). cbn [mode_of].
  unfold d1 at 1. by rewrite metrics_alerts.
Qed.

(** An item whose mapping raises is not isolated: the handler raises
    before [con.commit()] and the request leaves the database as it
    was. *)
Lemma raising_item_aborts clk (r : reading F) (evts : list (json F))
    (d : database F) :
  (∃ evt, evt ∈ evts ∧ ∃ e, map_event clk (r_host r) (r_ip r) evt = Raise e) →
  ingest clk {| x_api_key := Some API_KEY; payload := Nested r evts |} d
  = (server_error, d).
Proof.
  intros Hbad. unfold ingest. cbn [x_api_key payload].
  rewrite bool_decide_eq_true_2 by reflexivity. cbn [negb transaction].
  destruct (auth_loop_raise clk (r_host r) (r_ip r) evts
              (alerts clk (r_host r) (r_ip r) (r_cpu r) (r_mem r) (r_disk r)
                 (insert_metrics d (row_of r))) Hbad) as [e He].
  by rewrite He.
Qed.

(** C2, amended: in a nested submission whose other auth events map
    without raising, an event without a type (missing, null or empty) is
    passed over, in silence: the request is answered 200 and commits the
    metrics row, the outcome of the three metric evaluations and the
    alert rows of the other events, exactly as if the event had not been
    in the batch. *)
Theorem untyped_item_skipped (clk : clock) (r : reading F)
    (before after : list (json F)) (evt : json F) (d : database F) :
  AuthItems.untyped evt →
  (∀ e, e ∈ before ++ after →
     ∃ o, map_event clk (r_host r) (r_ip r) e = Ok o) →
  let d1 := alerts clk (r_host r) (r_ip r) (r_cpu r) (r_mem r) (r_disk r)
              (insert_metrics d (row_of r)) in
  ingest clk {| x_api_key := Some API_KEY;
                payload := Nested r (before ++ evt :: after) |} d
  = (ok "meta",
     {| metrics := metrics d ++ [row_of r];
        events := events d1
                  ++ AuthItems.alert_rows clk (r_host r) (r_ip r) (before ++ after);
        metric_state := metric_state d1 |})
  ∧ ingest clk {| x_api_key := Some API_KEY;
                  payload := Nested r (before ++ evt :: after) |} d
    = ingest clk {| x_api_key := Some API_KEY;
                    payload := Nested r (before ++ after) |} d.
Proof.
  intros Hun Hall d1.
  pose proof (untyped_skipped clk (r_host r) (r_ip r) evt Hun) as Hskip.
  assert (Hfull : ∀ e, e ∈ before ++ evt :: after →
                       ∃ o, map_event clk (r_host r) (r_ip r) e = Ok o).
  { intros e He. apply elem_of_app in He as [He|He].
    - apply Hall, elem_of_app. by left.
    - apply list_elem_of_In in He. destruct He as [<-|He]; [eauto|].
      apply Hall, elem_of_app. right. by apply list_elem_of_In. }
  rewrite (ingest_ok clk r _ d Hfull), (ingest_ok clk r _ d Hall).
  fold d1. by rewrite (alert_rows_without _ _ _ _ _ _ Hskip).
Qed.

End CollectorProperties.

Section CollectorWitnesses.

Import Collector QFloat Samples.

Lemma metric_alert_sequence_witness :
  MetricTable.view
    (MetricTable.evaluations empty_db "web1" "10.10.1.5" "cpu" CPU_TH
       [ ("08:00:00", 70 # 1); ("08:00:05", 91 # 1) ])
    "web1" "cpu"
  = Some (MetricTable.High (91 # 1)).
Proof.
  destruct (metric_alert_sequence empty_db "web1" "10.10.1.5" "cpu" CPU_TH
              MetricTable.Absent
              [ ("08:00:00", 70 # 1); ("08:00:05", 91 # 1) ] eq_refl)
    as (_ & Hview & _).
  rewrite Hview. reflexivity.
Defined.

Lemma small_drift_leaves_row_witness :
  handle_metric "2025-01-01 08:00:00" high_db "web1" "10.10.1.5" "cpu"
    (84 # 1) CPU_TH = high_db.
Proof.
  apply (small_drift_leaves_row "2025-01-01 08:00:00" high_db "web1"
           "10.10.1.5" "cpu" (84 # 1) CPU_TH high_row (82 # 1));
    reflexivity.
Defined.

Lemma unauthorized_no_effect_witness :
  ingest noon {| x_api_key := Some "guess"; payload := Nested busy [] |} empty_db
  = (unauthorized, empty_db).
Proof.
  apply (unauthorized_no_effect noon
           {| x_api_key := Some "guess"; payload := Nested busy [] |} empty_db).
  discriminate.
Defined.

(** C2 as stated fails: an item whose type is a number makes the
    handler raise before the commit, and neither the metrics row nor
    the alert for the processor at 90% nor the alert of the other item
    is persisted. *)
Lemma malformed_item_aborts :
  ¬ AuthItems.claimed_isolation noon busy
      [ numeric_type_item; failed_login_item ] empty_db.
Proof.
  unfold AuthItems.claimed_isolation. intros Hclaim.
  destruct Hclaim as (Hmetrics & _).
  - exists numeric_type_item. split; [apply list_elem_of_here|].
    exists AttributeError. reflexivity.
  - vm_compute in Hmetrics. discriminate Hmetrics.
Qed.

Lemma untyped_item_skipped_witness :
  events (snd (ingest noon (signed [ untyped_item; failed_login_item ]) empty_db))
  = [ {| host := "web1"; level := "critical";
         message := "CPU high on web1 (10.10.1.5): 90.0%" |};
      {| host := "web1"; level := "warning";
         message := "[WARNING] (TI) Failed SSH login from 10.0.0.9 (attacker_user) at 2025-01-01 12:00:00 to ip 10.10.1.5 (target_user)" |} ].
Proof.
  destruct (untyped_item_skipped noon busy [] [ failed_login_item ]
              untyped_item empty_db) as [Hok _].
  - exists [ ("src_ip", JStr "10.0.0.9") ]. split; reflexivity.
  - intros e He. apply list_elem_of_In in He. destruct He as [<-|[]].
    eexists. vm_compute. reflexivity.
  - unfold signed. cbn [app] in Hok. rewrite Hok. vm_compute. reflexivity.
Defined.

End CollectorWitnesses.




(** ** More on the Linux agent *)

Section LinuxAgentMore.

Import AgentLinux.

Lemma sapp_nil_l (b : string) : "" +:+ b = b.
Proof. reflexivity. Qed.

Lemma sapp_cons x (a b : string) : String x a +:+ b = String x (a +:+ b).
Proof. reflexivity. Qed.

Lemma sapp_assoc (a b c : string) : (a +:+ b) +:+ c = a +:+ b +:+ c.
Proof.
  induction a as [|x a IH]; rewrite ?sapp_nil_l, ?sapp_cons; [done|].
  by rewrite IH.
Qed.

Lemma sapp_nil_r (a : string) : a +:+ "" = a.
Proof.
  induction a as [|x a IH]; rewrite ?sapp_nil_l, ?sapp_cons; [done|].
  by rewrite IH.
Qed.

Lemma slength_app (a b : string) :
  String.length (a +:+ b) = (String.length a + String.length b)%nat.
Proof.
  induction a as [|x a IH]; rewrite ?sapp_nil_l, ?sapp_cons; [done|].
  simpl. by rewrite IH.
Qed.






Lemma span_split p s a b :
  Py.span p s = (a, b) → s = a +:+ b ∧ Py.all p a = true.
Proof.
  revert a b. induction s as [|c s IH]; intros a b; simpl.
  - by intros [= <- <-].
  - destruct (p c) eqn:Ec.
    + destruct (Py.span p s) as [a' b']. intros [= <- <-].
      destruct (IH a' b' eq_refl) as [-> Ha]. rewrite sapp_cons. simpl.
      by rewrite Ec, Ha.
    + by intros [= <- <-].
Qed.

Lemma after_prefix_split p s r : Py.after_prefix p s = Some r → s = p +:+ r.
Proof.
  revert s. induction p as [|a p IH]; intros s; simpl.
  - by intros [= ->].
  - destruct s as [|b s]; [discriminate|].
    destruct (Ascii.eqb a b) eqn:E; [|discriminate].
    apply Ascii.eqb_eq in E as ->. intros Hr. by rewrite (IH _ Hr), sapp_cons.
Qed.

Lemma after_prefix_app p r : Py.after_prefix p (p +:+ r) = Some r.
Proof.
  induction p as [|a p IH]; rewrite ?sapp_nil_l, ?sapp_cons; simpl; [done|].
  by rewrite Ascii.eqb_refl.
Qed.

Lemma search_suffix {A} (m : string -> option A) s a :
  Re.search m s = Some a → ∃ pre t, s = pre +:+ t ∧ m t = Some a.
Proof.
  induction s as [|c s IH]; simpl.
  - destruct (m "") eqn:E; [|discriminate]. intros [= <-]. by exists "", "".
  - destruct (m (String c s)) eqn:E.
    + intros [= <-]. by exists "", (String c s).
    + intros Hs. destruct (IH Hs) as (pre & t & -> & Ht).
      by exists (String c pre), t.
Qed.

Lemma contains_unfold sub s :
  Py.contains sub s =
    match Py.after_prefix sub s with
    | Some _ => true
    | None => match s with
              | EmptyString => false
              | String _ s' => Py.contains sub s'
              end
    end.
Proof. by destruct s. Qed.

Lemma contains_here x post : Py.contains x (x +:+ post) = true.
Proof. by rewrite contains_unfold, after_prefix_app. Qed.

Lemma contains_mid x pre post : Py.contains x (pre +:+ x +:+ post) = true.
Proof.
  induction pre as [|c pre IH]; [rewrite sapp_nil_l; apply contains_here|].
  rewrite contains_unfold, sapp_cons.
  by destruct (Py.after_prefix x (String c (pre +:+ x +:+ post))).
Qed.








Lemma group_nonspace_split s g r :
  Re.group_nonspace s = Some (g, r) → s = g +:+ r ∧ Shape.word g.
Proof.
  unfold Re.group_nonspace.
  destruct (Py.span Py.non_space s) as [g' r'] eqn:Es.
  apply span_split in Es as [-> Hg].
  destruct (Py.truthy g') eqn:Et; [|discriminate]. intros [= <- <-].
  split; [done|]. split; [|done]. by intros ->.
Qed.

Lemma search_user_word lit line u :
  search_user lit line = Some u → Shape.word u ∧ Py.contains u line = true.
Proof.
  intros Hs. apply search_suffix in Hs as (pre & t & -> & Ht).
  destruct (Py.after_prefix lit t) as [r|] eqn:El; cbn [mbind option_bind] in Ht;
    [|discriminate].
  apply after_prefix_split in El as ->.
  destruct (Re.group_nonspace r) as [[g r']|] eqn:Eg; cbn [mbind option_bind] in Ht;
    [|discriminate].
  injection Ht as <-. apply group_nonspace_split in Eg as [-> Hw].
  split; [done|]. rewrite <- (sapp_assoc pre lit). apply contains_mid.
Qed.

Lemma search_user_from_word lit line u :
  search_user_from lit line = Some u → Shape.word u ∧ Py.contains u line = true.
Proof.
  intros Hs. apply search_suffix in Hs as (pre & t & -> & Ht).
  destruct (Py.after_prefix lit t) as [r|] eqn:El; cbn [mbind option_bind] in Ht;
    [|discriminate].
  apply after_prefix_split in El as ->.
  destruct (Re.group_nonspace r) as [[g r1]|] eqn:Eg; cbn [mbind option_bind] in Ht;
    [|discriminate].
  destruct (Re.spaces r1) as [r2|]; cbn [mbind option_bind] in Ht; [|discriminate].
  destruct (Py.after_prefix "from" r2); cbn [mbind option_bind] in Ht;
    [|discriminate].
  injection Ht as <-. apply group_nonspace_split in Eg as [-> Hw].
  split; [done|]. rewrite <- (sapp_assoc pre lit). apply contains_mid.
Qed.



(** X2: a username [extract_username] returns is a piece of the line,
    not empty and without blank. *)
Theorem extract_username_word (line u : string) :
  extract_username line = Some u →
  Shape.word u ∧ Py.contains u line = true.
Proof.
  unfold extract_username, patterns, first_match.
  repeat match goal with
         | |- context [match ?p line with _ => _ end] =>
             let E := fresh "E" in
             destruct (p line) eqn:E;
             [ intros [= <-];
               first [ eapply search_user_word, E
                     | eapply search_user_from_word, E ] | ]
         end.
  discriminate.
Qed.

Lemma extract_username_word_witness : Shape.word "o'brien".
Proof.
  apply (extract_username_word
           "sshd[4]: Failed password for invalid user o'brien from 10.0.0.9 port 22"
           "o'brien").
  reflexivity.
Defined.

Lemma classify_kind lower k : classify lower = Some k → Shape.kind k.
Proof.
  unfold classify, Shape.kind.
  repeat match goal with |- context [if ?b then _ else _] => destruct b end;
    intros [= <-]; auto.
Qed.

Lemma ssh_events_ok_step st l :
  Shape.ssh_events_ok st → Shape.ssh_events_ok (ssh_step st l).
Proof.
  intros [Hnd Hev]. unfold ssh_step.
  destruct (decide (l ∈ seen_raw st)) as [Hin|Hin]; [done|].
  destruct (classify (Py.lower l)) as [k|] eqn:Ek.
  - split; cbn [events seen_raw].
    + rewrite map_app. apply NoDup_app. split; [done|]. split.
      * intros x Hx Hx'. apply list_elem_of_In in Hx'. cbn in Hx'.
        destruct Hx' as [<-|[]].
        apply list_elem_of_In, in_map_iff in Hx as (e & <- & He).
        apply list_elem_of_In, Hev in He as [He _]. done.
      * apply NoDup_singleton.
    + intros e He. apply elem_of_app in He as [He|He].
      * destruct (Hev e He) as [Hs Hk]. split; [|done].
        apply elem_of_union. by right.
      * apply list_elem_of_In in He. destruct He as [<-|[]]. cbn [raw type].
        split; [apply elem_of_union; left; by apply elem_of_singleton|].
        by eapply classify_kind.
  - split; cbn [events seen_raw]; [done|].
    intros e He. destruct (Hev e He) as [Hs Hk]. split; [|done].
    apply elem_of_union. by right.
Qed.

Lemma ssh_events_ok_pass st ls :
  Shape.ssh_events_ok st → Shape.ssh_events_ok (ssh_pass st ls).
Proof.
  revert st. induction ls as [|l ls IH]; intros st Hst; unfold ssh_pass in *;
    simpl; [done|].
  apply IH, ssh_events_ok_step, Hst.
Qed.

Lemma unseen_NoDup seen ls : NoDup (Stated.unseen seen ls).
Proof.
  revert seen. induction ls as [|l ls IH]; intros seen; simpl.
  - constructor.
  - destruct (bool_decide (l ∈ seen)); [apply IH|].
    constructor; [|apply IH].
    intros Hl. apply unseen_fresh in Hl. apply Hl, elem_of_union. left.
    by apply elem_of_singleton.
Qed.

Lemma unseen_subset seen ls x : x ∈ Stated.unseen seen ls → x ∈ ls.
Proof.
  revert seen. induction ls as [|l ls IH]; intros seen; simpl; [done|].
  destruct (bool_decide (l ∈ seen)).
  - intros Hx. apply list_elem_of_further. by eapply IH.
  - intros Hx. apply list_elem_of_In in Hx. destruct Hx as [<-|Hx].
    + apply list_elem_of_here.
    + apply list_elem_of_further. eapply IH. by apply list_elem_of_In.
Qed.

Lemma first_per_session_sublist ids ls :
  Stated.first_per_session ids ls `sublist_of` ls.
Proof.
  revert ids. induction ls as [|l ls IH]; intros ids; simpl; [done|].
  destruct (Stated.session_of l) as [i|].
  - destruct (bool_decide (i ∈ ids)).
    + apply sublist_cons, IH.
    + apply sublist_skip, IH.
  - apply sublist_skip, IH.
Qed.

Lemma filter_sublist {A} (p : A -> bool) (l : list A) :
  List.filter p l `sublist_of` l.
Proof.
  induction l as [|x l IH]; simpl; [done|].
  destruct (p x); [by apply sublist_skip | by apply sublist_cons].
Qed.

Lemma parse_lines_events_ok (m : memory) (ssh_lines logind_lines : list string) :
  NoDup (map raw (fst (parse_lines ssh_lines logind_lines m)))
  ∧ ∀ e, e ∈ fst (parse_lines ssh_lines logind_lines m) →
         Shape.kind (type e) ∧ raw e ∈ ssh_lines ++ logind_lines.
Proof.
  assert (Hok : Shape.ssh_events_ok (ssh_pass (ssh_start m) ssh_lines)).
  { apply ssh_events_ok_pass. split; [constructor|].
    intros e He. by apply elem_of_nil in He. }
  destruct Hok as [Hnd Hev].
  assert (Hseen : ∀ x, x ∈ seen_raw (ssh_pass (ssh_start m) ssh_lines)
                       ↔ x ∈ ssh_lines).
  { intros x. rewrite seen_raw_pass, elem_of_union, elem_of_list_to_set.
    cbn [ssh_start seen_raw]. rewrite elem_of_empty. tauto. }
  unfold parse_lines.
  destruct (saw_sshd_logout (ssh_pass (ssh_start m) ssh_lines)); cbn [negb fst].
  - split; [done|]. intros e He. destruct (Hev e He) as [Hs Hk].
    split; [done|]. apply elem_of_app. left. by apply Hseen.
  - rewrite logind_pass_events. cbn [l_events seen_sessions l_seen_raw].
    set (X := Stated.first_per_session ∅ _).
    assert (HX : ∀ x, x ∈ X →
              x ∈ logind_lines
              ∧ x ∉ seen_raw (ssh_pass (ssh_start m) ssh_lines)).
    { intros x Hx.
      eapply elem_of_sublist in Hx; [|apply first_per_session_sublist].
      eapply elem_of_sublist in Hx; [|apply filter_sublist].
      split; [by eapply unseen_subset | by eapply unseen_fresh]. }
    split.
    + rewrite map_app, map_raw_logind_event. apply NoDup_app.
      split; [done|]. split.
      * intros x Hx Hx'. apply HX in Hx' as [_ Hx']. apply Hx'.
        apply list_elem_of_In, in_map_iff in Hx as (e & <- & He).
        apply list_elem_of_In, Hev in He as [He _]. done.
      * eapply sublist_NoDup; [apply unseen_NoDup|].
        etrans; [apply first_per_session_sublist | apply filter_sublist].
    + intros e He. apply elem_of_app in He as [He|He].
      * destruct (Hev e He) as [Hs Hk]. split; [done|].
        apply elem_of_app. left. by apply Hseen.
      * apply list_elem_of_In, in_map_iff in He as (x & <- & Hx).
        apply list_elem_of_In, HX in Hx as [Hx _]. cbn [logind_event type raw].
        split; [right; right; done|]. apply elem_of_app. by right.
Qed.

(** X3: the events of a window are of the three kinds, each has a line
    of the window as its raw text, and no two of them have the same raw
    text; so there are no more events than lines. *)
Theorem window_events_distinct (m : memory) (ssh_lines logind_lines : list string) :
  let out := fst (parse_lines ssh_lines logind_lines m) in
  NoDup (map raw out)
  ∧ (∀ e, e ∈ out → Shape.kind (type e) ∧ raw e ∈ ssh_lines ++ logind_lines)
  ∧ (length out <= length (ssh_lines ++ logind_lines))%nat.
Proof.
  intros out.
  destruct (parse_lines_events_ok m ssh_lines logind_lines) as [Hn Hm].
  split; [done|]. split; [done|].
  rewrite <- (length_map raw out).
  apply NoDup_incl_length; [by apply NoDup_ListNoDup|].
  intros x Hx. apply in_map_iff in Hx as (e & <- & He).
  apply list_elem_of_In. by apply Hm, list_elem_of_In.
Qed.

Lemma ssh_pass_seen st ls :
  (∀ l, l ∈ ls → l ∈ seen_raw st) → ssh_pass st ls = st.
Proof.
  induction ls as [|l ls IH]; intros Hall; unfold ssh_pass in *; simpl; [done|].
  assert (Hl : ssh_step st l = st).
  { unfold ssh_step. destruct (decide (l ∈ seen_raw st)) as [|Hn]; [done|].
    destruct Hn. apply Hall, list_elem_of_here. }
  rewrite Hl. apply IH. intros x Hx. by apply Hall, list_elem_of_further.
Qed.

(** X4: sshd lines that repeat lines already gathered change nothing;
    so on a host where the unit [sshd] is an alias of [ssh], where both
    queries return the same text, the result is that of one query. *)
Theorem repeated_lines_ignored (m : memory)
    (ssh_lines again logind_lines : list string) (out : string)
    (logind_out : option string) :
  (∀ l, l ∈ again → l ∈ ssh_lines) →
  parse_lines (ssh_lines ++ again) logind_lines m
  = parse_lines ssh_lines logind_lines m
  ∧ parse_journalctl_events
      {| unit_ssh := Some out; unit_sshd := Some out; tag_logind := logind_out |} m
    = parse_journalctl_events
        {| unit_ssh := Some out; unit_sshd := None; tag_logind := logind_out |} m.
Proof.
  intros Hsub.
  assert (Hgen : ∀ a b, (∀ l, l ∈ b → l ∈ a) →
            ssh_pass (ssh_start m) (a ++ b) = ssh_pass (ssh_start m) a).
  { intros a b Hab. unfold ssh_pass at 1. rewrite fold_left_app.
    apply ssh_pass_seen. intros l Hl. fold (ssh_pass (ssh_start m) a).
    rewrite seen_raw_pass. apply elem_of_union. left.
    by apply elem_of_list_to_set, Hab. }
  split.
  - unfold parse_lines. by rewrite (Hgen _ _ Hsub).
  - unfold parse_journalctl_events, parse_lines.
    cbn [unit_ssh unit_sshd tag_logind lines_of].
    rewrite app_nil_r. by rewrite (Hgen _ _ (λ l Hl, Hl)).
Qed.

Lemma repeated_lines_ignored_witness :
  parse_lines ([ Samples.alice_login; Samples.bare_logout ] ++ [ Samples.alice_login ])
    [] Samples.blank
  = parse_lines [ Samples.alice_login; Samples.bare_logout ] [] Samples.blank.
Proof.
  apply (repeated_lines_ignored Samples.blank
           [ Samples.alice_login; Samples.bare_logout ] [ Samples.alice_login ]
           [] "" None).
  intros l Hl. apply list_elem_of_In in Hl. destruct Hl as [<-|[]].
  apply list_elem_of_here.
Defined.

(** *** Lines *)

Lemma truthy_ne s : Py.truthy s = true ↔ s ≠ "".
Proof. destruct s; simpl; split; congruence. Qed.

Lemma all_lstrip p s : Py.all p s = true → Py.all p (Py.lstrip s) = true.
Proof.
  induction s as [|c s IH]; simpl; [done|].
  intros Hs. destruct (Py.is_space c); [|done].
  apply andb_true_iff in Hs as [_ Hs]. by apply IH.
Qed.

Lemma all_rstrip p s : Py.all p s = true → Py.all p (Py.rstrip s) = true.
Proof.
  induction s as [|c s IH]; simpl; [done|].
  intros Hs. apply andb_true_iff in Hs as [Hc Hs]. specialize (IH Hs).
  destruct (Py.rstrip s) as [|c' r].
  - destruct (Py.is_space c); simpl; [done|]. by rewrite Hc.
  - simpl in *. by rewrite Hc, IH.
Qed.

Lemma all_strip p s : Py.all p s = true → Py.all p (Py.strip s) = true.
Proof. intros Hs. by apply all_rstrip, all_lstrip. Qed.

Lemma rstrip_idem s : Py.rstrip (Py.rstrip s) = Py.rstrip s.
Proof.
  induction s as [|c s IH]; simpl; [done|].
  destruct (Py.rstrip s) as [|c' r] eqn:Er.
  - destruct (Py.is_space c) eqn:Ec; simpl; [done|]. by rewrite Ec.
  - change (Py.rstrip (String c (String c' r)))
      with (match Py.rstrip (String c' r) with
            | EmptyString => if Py.is_space c then EmptyString else String c EmptyString
            | r' => String c r'
            end).
    by rewrite IH.
Qed.

Lemma lstrip_head s : Py.lstrip s = "" ∨ ∃ c r, Py.lstrip s = String c r ∧ Py.is_space c = false.
Proof.
  induction s as [|c s IH]; simpl; [by left|].
  destruct (Py.is_space c) eqn:Ec; [done|]. right. by exists c, s.
Qed.

Lemma rstrip_head c s :
  Py.is_space c = false → ∃ r, Py.rstrip (String c s) = String c r.
Proof.
  intros Hc. simpl. destruct (Py.rstrip s) as [|c' r].
  - rewrite Hc. by exists "".
  - by exists (String c' r).
Qed.

Lemma strip_idem s : Py.strip (Py.strip s) = Py.strip s.
Proof.
  unfold Py.strip. destruct (lstrip_head s) as [->|(c & r & -> & Hc)]; [done|].
  destruct (rstrip_head c r Hc) as [r' Hr]. rewrite Hr.
  assert (Hl : Py.lstrip (String c r') = String c r') by (simpl; by rewrite Hc).
  rewrite Hl, <- Hr. apply rstrip_idem.
Qed.

Lemma all_of_list p l :
  Py.all p (string_of_list_ascii l) = forallb p l.
Proof. induction l as [|c l IH]; simpl; [done|]. by rewrite IH. Qed.

Lemma forallb_rev {A} (p : A -> bool) l : forallb p (rev l) = forallb p l.
Proof.
  induction l as [|x l IH]; simpl; [done|].
  rewrite forallb_app, IH. simpl. rewrite andb_true_r. apply andb_comm.
Qed.

Lemma splitlines_go_one_line s : ∀ cur after_cr ln,
  forallb (λ c, negb (Py.is_linebreak c)) cur = true →
  ln ∈ Py.splitlines_go cur after_cr s → Shape.one_line ln.
Proof.
  induction s as [|c s IH]; intros cur after_cr ln Hcur; simpl.
  - destruct cur as [|c' cur']; [by intros ?%elem_of_nil|].
    intros Hln. apply list_elem_of_In in Hln. destruct Hln as [<-|[]].
    unfold Shape.one_line. by rewrite all_of_list, forallb_rev.
  - destruct (after_cr && Py.is_lf c); [by apply IH|].
    destruct (Py.is_linebreak c) eqn:Ec.
    + intros Hln. apply list_elem_of_In in Hln. destruct Hln as [<-|Hln].
      * unfold Shape.one_line. by rewrite all_of_list, forallb_rev.
      * eapply (IH [] _ ln); [done|]. by apply list_elem_of_In.
    + apply IH. simpl. by rewrite Ec.
Qed.

Lemma splitlines_one_line s ln : ln ∈ Py.splitlines s → Shape.one_line ln.
Proof. by apply splitlines_go_one_line. Qed.

Lemma lines_of_line o ln :
  ln ∈ lines_of o →
  Shape.one_line ln ∧ Py.strip ln ≠ ""
  ∧ ∃ out, o = Some out ∧ ln ∈ Py.splitlines (Py.strip out).
Proof.
  destruct o as [out|]; simpl; [|by intros ?%elem_of_nil].
  unfold nonblank_lines. intros Hln.
  apply list_elem_of_In, filter_In in Hln as [Hln Ht].
  apply list_elem_of_In in Hln.
  split; [by eapply splitlines_one_line|]. split; [by apply truthy_ne|].
  by exists out.
Qed.

(** X5: the raw text of each event is one whole line of what one of
    the three [journalctl] calls printed: it holds no line break and is
    not blank. *)
Theorem journal_events_raw (j : journal) (m : memory) (e : auth_event) :
  e ∈ fst (parse_journalctl_events j m) →
  Shape.one_line (raw e) ∧ Py.strip (raw e) ≠ ""
  ∧ ∃ out, (unit_ssh j = Some out ∨ unit_sshd j = Some out
            ∨ tag_logind j = Some out)
           ∧ raw e ∈ Py.splitlines (Py.strip out).
Proof.
  unfold parse_journalctl_events. intros He.
  apply parse_lines_events_ok in He as [_ Hraw].
  apply elem_of_app in Hraw as [Hraw|Hraw];
    [apply elem_of_app in Hraw as [Hraw|Hraw]|];
    apply lines_of_line in Hraw as (H1 & H2 & out & Ho & Hin);
    (split; [done|]); (split; [done|]); exists out; auto.
Qed.

Lemma journal_events_raw_witness :
  Shape.one_line Samples.alice_login.
Proof.
  apply (journal_events_raw Samples.alice_journal Samples.blank
           {| type := "successful_login"; username := Some "alice";
              src_ip := Some "10.0.0.5"; raw := Samples.alice_login |}).
  vm_compute. apply list_elem_of_here.
Defined.

(** *** The identity fields *)









End LinuxAgentMore.

(** ** The address of the host *)

Section HostAddress.

Import Host.

Lemma scan_some lst ip :
  scan lst = Some ip →
  ∃ a, a ∈ lst ∧ address a = ip ∧ fam a = AF_INET
       ∧ Py.after_prefix "127." ip = None.
Proof.
  induction lst as [|a lst IH]; cbn [scan]; [discriminate|].
  destruct (usable a) eqn:Eu.
  - intros [= <-]. exists a. split; [apply list_elem_of_here|]. split; [done|].
    unfold usable in Eu. apply andb_true_iff in Eu as [Hf Hl].
    split; [revert Hf; by destruct (fam a)|].
    apply negb_true_iff, bool_decide_eq_false in Hl.
    destruct (Py.after_prefix "127." (address a)); [|done].
    destruct Hl. by eexists.
  - intros Hs. destruct (IH Hs) as (b & Hb & Hrest). exists b.
    split; [by apply list_elem_of_further | done].
Qed.

Lemma scan_none lst : scan lst = None → ∀ a, a ∈ lst → usable a = false.
Proof.
  induction lst as [|a lst IH]; simpl; [by intros _ b ?%elem_of_nil|].
  destruct (usable a) eqn:Eu; [discriminate|].
  intros Hs b Hb. apply list_elem_of_In in Hb. destruct Hb as [<-|Hb]; [done|].
  by apply IH, list_elem_of_In.
Qed.

Lemma scan_all_some items ip :
  scan_all items = Some ip →
  ∃ iface lst a, (iface, lst) ∈ items ∧ a ∈ lst ∧ address a = ip
                 ∧ fam a = AF_INET ∧ Py.after_prefix "127." ip = None.
Proof.
  induction items as [|[iface lst] items IH]; cbn [scan_all]; [discriminate|].
  destruct (scan lst) as [ip'|] eqn:Es.
  - intros [= <-]. destruct (scan_some _ _ Es) as (a & Ha & Hrest).
    exists iface, lst, a. split; [apply list_elem_of_here | done].
  - intros Hs. destruct (IH Hs) as (i & l & a & Hi & Hrest).
    exists i, l, a. split; [by apply list_elem_of_further | done].
Qed.

Lemma scan_all_none items :
  scan_all items = None →
  ∀ iface lst a, (iface, lst) ∈ items → a ∈ lst → usable a = false.
Proof.
  induction items as [|[iface lst] items IH]; simpl;
    [by intros _ i l a ?%elem_of_nil|].
  destruct (scan lst) as [ip'|] eqn:Es; [discriminate|].
  intros Hs i l a Hi Ha. apply list_elem_of_In in Hi.
  destruct Hi as [[= <- <-]|Hi].
  - by eapply scan_none.
  - eapply IH; [done| |done]. by apply list_elem_of_In.
Qed.

(** X6: [get_ip] never returns an address that starts with 127.; it
    returns the address of an entry of the interface table that is IPv4
    and outside 127., or else the word unknown, when the table could
    not be read or has no such entry. *)
Theorem get_ip_not_loopback (net_if_addrs : option (list (string * list snicaddr))) :
  Py.after_prefix "127." (get_ip net_if_addrs) = None
  ∧ ((∃ items iface lst a,
        net_if_addrs = Some items ∧ (iface, lst) ∈ items ∧ a ∈ lst
        ∧ fam a = AF_INET ∧ get_ip net_if_addrs = address a)
     ∨ (get_ip net_if_addrs = "unknown"
        ∧ ∀ items iface lst a,
            net_if_addrs = Some items → (iface, lst) ∈ items → a ∈ lst →
            usable a = false)).
Proof.
  destruct net_if_addrs as [items|]; cbn [get_ip].
  - destruct (scan_all items) as [ip|] eqn:Es; cbn [default].
    + destruct (scan_all_some _ _ Es) as (i & l & a & Hi & Ha & Haddr & Hf & Hl).
      split; [done|]. left. by exists items, i, l, a.
    + split; [done|]. right. split; [done|].
      intros items' i' l' a' [= <-] Hi' Ha'. by eapply scan_all_none.
  - split; [done|]. right. split; [done|]. by intros ? ? ? ? [=].
Qed.

End HostAddress.

(** ** More on the Windows agent *)

Section WindowsAgentMore.

Import Win11Agent.

Variable now_oman : string.
Variable iso_to_oman : string -> option string.






(** *** Records seen *)

Lemma openssh_step_seen st r :
  fst (openssh_step now_oman iso_to_oman st r)
  = match RecordId r with Some rid => {[rid]} ∪ fst st | None => fst st end.
Proof.
  destruct st as [seen events]. unfold openssh_step. cbn [fst].
  destruct (RecordId r) as [rid|]; [|done].
  destruct (decide (rid ∈ seen)) as [Hin|Hin].
  - cbn [fst]. apply leibniz_equiv. intros x.
    rewrite elem_of_union, elem_of_singleton. split; [tauto|].
    intros [->|Hx]; done.
  - destruct (negb _); [done|].
    destruct (parse_openssh_message _) as [[[etype user] ip]|]; [|done].
    by destruct (skipped_ip ip).
Qed.

Lemma openssh_fold_seen rows : ∀ st,
  fst (fold_left (openssh_step now_oman iso_to_oman) rows st)
  = Shape.ids rows ∪ fst st.
Proof.
  induction rows as [|r rows IH]; intros st; cbn [fold_left].
  - apply leibniz_equiv. intros x. unfold Shape.ids. cbn [omap list_omap list_to_set].
    rewrite elem_of_union, elem_of_empty. tauto.
  - rewrite IH, openssh_step_seen. apply leibniz_equiv. intros x.
    unfold Shape.ids. cbn [omap list_omap].
    destruct (RecordId r) as [rid|]; cbn [list_to_set];
      rewrite !elem_of_union; tauto.
Qed.

Lemma openssh_fold_skip rows : ∀ st,
  (∀ r rid, r ∈ rows → RecordId r = Some rid → rid ∈ fst st) →
  fold_left (openssh_step now_oman iso_to_oman) rows st = st.
Proof.
  induction rows as [|r rows IH]; intros st Hall; cbn [fold_left]; [done|].
  assert (Hr : openssh_step now_oman iso_to_oman st r = st).
  { destruct st as [seen events]. unfold openssh_step.
    destruct (RecordId r) as [rid|] eqn:Er; [|done].
    destruct (decide (rid ∈ seen)) as [|Hn]; [done|].
    destruct Hn. eapply (Hall r rid); [apply list_elem_of_here | done]. }
  rewrite Hr. apply IH. intros r' rid Hr' Hid.
  eapply Hall; [by apply list_elem_of_further | done].
Qed.

Lemma elem_of_ids rows rid :
  rid ∈ Shape.ids rows ↔ ∃ r, r ∈ rows ∧ RecordId r = Some rid.
Proof.
  unfold Shape.ids. rewrite elem_of_list_to_set, list_elem_of_omap.
  split; intros (r & Hr & Hid); by exists r.
Qed.

(** X8: after a poll of the event log the set of seen records is the
    old one with the ids of all records of the poll, whether they gave
    an event or not; a later poll that brings only records of that set,
    such as the same records again, returns no event and leaves the set
    as it is. *)
Theorem seen_records_skipped (rows : list row) (seen : gset Z) :
  let seen' := snd (collect_from_openssh_operational now_oman iso_to_oman rows seen) in
  seen' = Shape.ids rows ∪ seen
  ∧ collect_from_openssh_operational now_oman iso_to_oman rows seen' = ([], seen')
  ∧ ∀ rows', Shape.ids rows' ⊆ seen' →
      collect_from_openssh_operational now_oman iso_to_oman rows' seen' = ([], seen').
Proof.
  intros seen'.
  assert (Hseen : seen' = Shape.ids rows ∪ seen).
  { unfold seen', collect_from_openssh_operational.
    pose proof (openssh_fold_seen rows (seen, [])) as Hf.
    by destruct (fold_left _ rows (seen, [])) as [s ev]. }
  assert (Hskip : ∀ rows', Shape.ids rows' ⊆ seen' →
    collect_from_openssh_operational now_oman iso_to_oman rows' seen' = ([], seen')).
  { intros rows' Hsub. unfold collect_from_openssh_operational.
    rewrite openssh_fold_skip; [done|].
    intros r rid Hr Hid. cbn [fst]. apply Hsub, elem_of_ids. by exists r. }
  split; [done|]. split; [|done].
  apply Hskip. rewrite Hseen. intros x Hx. apply elem_of_union. by left.
Qed.

(** *** The log file *)

Lemma read_from_app old extra :
  read_from (Z.of_nat (String.length old)) (old +:+ extra) = extra.
Proof.
  induction old as [|c old IH].
  - rewrite sapp_nil_l. by destruct extra.
  - rewrite sapp_cons. cbn [String.length read_from].
    destruct (Z.of_nat (S (String.length old)) <=? 0) eqn:E;
      [apply Z.leb_le in E; lia|].
    replace (Z.of_nat (S (String.length old)) - 1)
      with (Z.of_nat (String.length old)) by lia.
    apply IH.
Qed.

Lemma read_from_exact offset content :
  0 ≤ offset ≤ Z.of_nat (String.length content) →
  offset + Z.of_nat (String.length (read_from offset content))
  = Z.of_nat (String.length content).
Proof.
  revert offset. induction content as [|c content IH]; intros offset Ho.
  - cbn [String.length] in *. assert (offset = 0) as -> by lia. done.
  - cbn [read_from]. destruct (offset <=? 0) eqn:E.
    + apply Z.leb_le in E. assert (offset = 0) as -> by lia. done.
    + apply Z.leb_gt in E. cbn [String.length] in *.
      specialize (IH (offset - 1)). lia.
Qed.

Lemma stored_offset_str n files :
  0 ≤ n < 2 ^ 63 →
  stored_offset {| state_file := Some (Py.str_of_Z n); files := files |} = Some n.
Proof.
  intros Hn. unfold stored_offset. cbn [state_file].
  rewrite int_str_of_Z by lia. cbn [mbind option_bind].
  destruct (n <? 0) eqn:E1; [apply Z.ltb_lt in E1; lia|].
  destruct (2 ^ 63 <=? n) eqn:E2; [apply Z.leb_le in E2; lia|]. done.
Qed.

(** X9: what is appended to the log between two reads is what the
    second read returns: after a read that started within the file,
    the next read of the file grown by [extra] gives the lines of
    [extra] alone and moves the stored offset to the new end. *)
Theorem appended_lines_read (path : string) (fs : filesystem)
    (old extra : string) (offset : Z) :
  files fs !! path = Some old →
  stored_offset fs = Some offset →
  offset ≤ Z.of_nat (String.length old) →
  Z.of_nat (String.length (old +:+ extra)) < 2 ^ 63 →
  let fs1 := snd (read_file_new_lines path fs) in
  read_file_new_lines path
    {| state_file := state_file fs1;
       files := <[path := old +:+ extra]> (files fs1) |}
  = (Shape.chunk_lines extra,
     {| state_file := Some (Py.str_of_Z (Z.of_nat (String.length (old +:+ extra))));
        files := <[path := old +:+ extra]> (files fs) |}).
Proof.
  intros Hf Ho Hle Hmax fs1.
  pose proof (stored_offset_range _ _ Ho) as Hpos.
  rewrite slength_app in Hmax.
  assert (Hfs1 : fs1 = {| state_file := Some (Py.str_of_Z (Z.of_nat (String.length old)));
                          files := files fs |}).
  { unfold fs1, read_file_new_lines. rewrite Hf, Ho. cbn [snd].
    by rewrite read_from_exact by lia. }
  rewrite Hfs1. cbn [state_file files]. unfold read_file_new_lines.
  cbn [files]. rewrite lookup_insert_eq.
  rewrite stored_offset_str by lia.
  rewrite read_from_app, slength_app. unfold Shape.chunk_lines.
  by rewrite Nat2Z.inj_add.
Qed.

Lemma appended_lines_read_witness :
  let path := "C:\ProgramData\ssh\sshd.log" in
  let old := "first" +:+ Samples.LF in
  let extra := "second" +:+ Samples.LF in
  let fs := {| state_file := None; files := {[ path := old ]} |} in
  read_file_new_lines path
    {| state_file := state_file (snd (read_file_new_lines path fs));
       files := <[path := old +:+ extra]> (files (snd (read_file_new_lines path fs))) |}
  = (Shape.chunk_lines extra,
     {| state_file := Some (Py.str_of_Z (Z.of_nat (String.length (old +:+ extra))));
        files := <[path := old +:+ extra]> (files fs) |}).
Proof.
  intros path old extra fs.
  apply (appended_lines_read path fs old extra 0).
  - apply lookup_singleton_eq.
  - reflexivity.
  - vm_compute. discriminate.
  - vm_compute. reflexivity.
Defined.

(** X10: the stored offset never moves back: a file that is not longer
    than the offset, as after a rotation or a truncation of the log,
    gives no line, and the offset stays where it was, so what the new
    file holds below the old offset is never read. *)
Theorem shorter_file_unread (path : string) (fs : filesystem)
    (content : string) (offset : Z) :
  files fs !! path = Some content →
  stored_offset fs = Some offset →
  Z.of_nat (String.length content) ≤ offset →
  read_file_new_lines path fs
  = ([], {| state_file := Some (Py.str_of_Z offset); files := files fs |})
  ∧ stored_offset (snd (read_file_new_lines path fs)) = Some offset.
Proof.
  intros Hf Ho Hle.
  assert (Hr : read_file_new_lines path fs
    = ([], {| state_file := Some (Py.str_of_Z offset); files := files fs |})).
  { unfold read_file_new_lines. rewrite Hf, Ho, read_from_end by done.
    cbn [String.length decode_ignore]. by rewrite Z.add_0_r. }
  split; [done|]. rewrite Hr. cbn [snd].
  pose proof (stored_offset_range _ _ Ho) as Hpos.
  apply stored_offset_str. split; [done|].
  unfold stored_offset in Ho.
  destruct (match state_file fs with Some _ => _ | None => _ end) as [o|];
    cbn [mbind option_bind] in Ho; [|discriminate].
  destruct ((o <? 0) || (2 ^ 63 <=? o)) eqn:E; [discriminate|].
  injection Ho as <-. apply orb_false_iff in E as [_ E]. by apply Z.leb_gt in E.
Qed.

Lemma shorter_file_unread_witness :
  let path := "C:\ProgramData\ssh\sshd.log" in
  let fs := {| state_file := Some "400";
               files := {[ path := "Accepted password for alice from 10.0.0.5" ]} |} in
  read_file_new_lines path fs
  = ([], {| state_file := Some (Py.str_of_Z 400); files := files fs |}).
Proof.
  intros path fs.
  apply (shorter_file_unread path fs "Accepted password for alice from 10.0.0.5" 400).
  - apply lookup_singleton_eq.
  - reflexivity.
  - vm_compute. discriminate.
Defined.

(** X18: the stored offset is one for all files: a read of another
    file right after a read of a first one starts at the length of the
    first file, so that many bytes of the other file are left out. *)
Theorem checkpoint_shared (p1 p2 : string) (fs : filesystem)
    (c1 c2 : string) (offset : Z) :
  files fs !! p1 = Some c1 →
  files fs !! p2 = Some c2 →
  stored_offset fs = Some offset →
  offset ≤ Z.of_nat (String.length c1) →
  Z.of_nat (String.length c1) < 2 ^ 63 →
  fst (read_file_new_lines p2 (snd (read_file_new_lines p1 fs)))
  = Shape.chunk_lines (read_from (Z.of_nat (String.length c1)) c2).
Proof.
  intros H1 H2 Ho Hle Hmax.
  pose proof (stored_offset_range _ _ Ho) as Hpos.
  unfold read_file_new_lines at 2. rewrite H1, Ho. cbn [snd].
  rewrite read_from_exact by lia.
  unfold read_file_new_lines. cbn [files]. rewrite H2.
  by rewrite stored_offset_str by lia.
Qed.

Lemma checkpoint_shared_witness :
  let p1 := "C:\ProgramData\ssh\logs\sshd.log" in
  let p2 := "C:\ProgramData\ssh\sshd.log" in
  let c1 := "Connection closed" in
  let c2 := "Accepted password for alice from 10.0.0.5 port 22 ssh2" in
  let fs := {| state_file := None; files := {[ p1 := c1; p2 := c2 ]} |} in
  fst (read_file_new_lines p2 (snd (read_file_new_lines p1 fs)))
  = Shape.chunk_lines (read_from (Z.of_nat (String.length c1)) c2).
Proof.
  intros p1 p2 c1 c2 fs.
  apply (checkpoint_shared p1 p2 fs c1 c2 0).
  - reflexivity.
  - reflexivity.
  - reflexivity.
  - vm_compute. discriminate.
  - vm_compute. reflexivity.
Defined.

(** X11: a state file whose text is no offset (not an integer, or one
    that is negative or beyond the range of a file position) silences
    the log-file collector for good: every poll returns no event and
    leaves the state file as it is, whatever the log files hold. *)
Theorem unreadable_checkpoint_silences (fs : filesystem) :
  stored_offset fs = None →
  ∀ logs : gmap string string,
    collect_from_sshd_logfile now_oman
      {| state_file := state_file fs; files := logs |}
    = ([], {| state_file := state_file fs; files := logs |}).
Proof.
  intros Ho logs.
  assert (Ho' : stored_offset {| state_file := state_file fs; files := logs |} = None)
    by exact Ho.
  unfold collect_from_sshd_logfile.
  induction LOG_PATHS as [|p ps IH]; cbn [first_log]; [done|].
  destruct (decide (is_Some (files _ !! p))) as [[c Hc]|]; [|done].
  unfold read_file_new_lines. by rewrite Hc, Ho'.
Qed.

(** X12: the lines [read_file_new_lines] returns are stripped, not
    empty and without line break. *)
Theorem new_lines_stripped (path : string) (fs : filesystem) (ln : string) :
  ln ∈ fst (read_file_new_lines path fs) →
  ln ≠ "" ∧ Py.strip ln = ln ∧ Shape.one_line ln.
Proof.
  unfold read_file_new_lines.
  destruct (files fs !! path) as [content|]; [|by intros ?%elem_of_nil].
  destruct (stored_offset fs) as [offset|]; [|by intros ?%elem_of_nil].
  cbn [fst]. intros Hln.
  apply list_elem_of_In, filter_In in Hln as [Hln Ht].
  apply in_map_iff in Hln as (l0 & <- & Hl0).
  split; [by apply truthy_ne|]. split; [apply strip_idem|].
  apply all_strip. eapply splitlines_one_line. by apply list_elem_of_In.
Qed.

End WindowsAgentMore.

Lemma unreadable_checkpoint_silences_witness :
  Win11Agent.collect_from_sshd_logfile "2025-01-01T12:00:00+04:00"
    {| Win11Agent.state_file := Some "12 bytes";
       Win11Agent.files :=
         {["C:\ProgramData\ssh\sshd.log" :=
             "Accepted password for alice from 10.0.0.5 port 22 ssh2"]} |}
  = ([], {| Win11Agent.state_file := Some "12 bytes";
            Win11Agent.files :=
              {["C:\ProgramData\ssh\sshd.log" :=
                  "Accepted password for alice from 10.0.0.5 port 22 ssh2"]} |}).
Proof.
  apply (unreadable_checkpoint_silences "2025-01-01T12:00:00+04:00"
           {| Win11Agent.state_file := Some "12 bytes"; Win11Agent.files := ∅ |}).
  reflexivity.
Defined.

Lemma new_lines_stripped_witness :
  "sshd: session closed" ≠ ""
  ∧ Py.strip "sshd: session closed" = "sshd: session closed"
  ∧ Shape.one_line "sshd: session closed".
Proof.
  apply (new_lines_stripped "C:\ProgramData\ssh\sshd.log"
           {| Win11Agent.state_file := None;
              Win11Agent.files :=
                {["C:\ProgramData\ssh\sshd.log" := "  sshd: session closed  "]} |}).
  vm_compute. apply list_elem_of_here.
Defined.

(** ** More on the collector *)

Section CollectorMore.

Import Collector QFloat.
Context {F : Type} `{Float F}.

Lemma handle_metric_appends now (d : database F) host ip kind v th :
  ∃ new, events (handle_metric now d host ip kind v th) = events d ++ new
         ∧ (length new <= 1)%nat
         ∧ ∀ e, e ∈ new → Collector.host e = host.
Proof.
  unfold handle_metric. destruct (_get_metric_state d host kind) as [ps pv].
  repeat match goal with
         | |- context [if ?b then _ else _] => destruct b
         | |- context [match ?o with Some _ => _ | None => _ end] =>
             is_var o; destruct o
         end;
    cbn [_set_metric_state insert_event events];
    first [ eexists [_]; split; [reflexivity|]; split; [simpl; lia|];
            intros e He; apply list_elem_of_In in He; destruct He as [<-|[]];
            reflexivity
          | exists []; split; [by rewrite app_nil_r|]; split; [simpl; lia|];
            by intros e ?%elem_of_nil ].
Qed.

Lemma handle_metric_status now (d : database F) host ip kind v th :
  fst (_get_metric_state (handle_metric now d host ip kind v th) host kind)
  = if f_ge v th then "high" else "normal".
Proof.
  unfold handle_metric.
  destruct (_get_metric_state d host kind) as [ps pv] eqn:Eg.
  destruct (f_ge v th); destruct (String.eqb ps "high") eqn:Eh; cbn [andb negb];
    try (unfold _get_metric_state, _set_metric_state; cbn [metric_state insert_event];
         by rewrite lookup_insert_eq).
  apply String.eqb_eq in Eh as ->.
  destruct (match pv with Some pv0 => drifted v pv0 | None => true end).
  - unfold _get_metric_state, _set_metric_state. cbn [metric_state insert_event].
    by rewrite lookup_insert_eq.
  - by rewrite Eg.
Qed.

Lemma handle_metric_others now (d : database F) host ip kind v th h k :
  (h, k) ≠ (host, kind) →
  metric_state (handle_metric now d host ip kind v th) !! (h, k)
  = metric_state d !! (h, k).
Proof.
  intros Hne. unfold handle_metric.
  destruct (_get_metric_state d host kind) as [ps pv].
  repeat match goal with
         | |- context [if ?b then _ else _] => destruct b
         | |- context [match ?o with Some _ => _ | None => _ end] =>
             is_var o; destruct o
         end;
    cbn [_set_metric_state insert_event metric_state];
    rewrite ?lookup_insert_ne by done; reflexivity.
Qed.

(** X13: after a call of [handle_metric] the status stored for the
    pair tells whether the value just seen is at or above the
    threshold, whatever was stored before; the rows of the other pairs
    and the metrics are as they were; the events are the old ones
    followed by at most one new row, filed under the host. *)
Theorem handle_metric_effect (now : string) (d : database F)
    (host host_ip kind : string) (value threshold : F) :
  let d' := handle_metric now d host host_ip kind value threshold in
  fst (_get_metric_state d' host kind)
  = (if f_ge value threshold then "high" else "normal")
  ∧ (∀ h k, (h, k) ≠ (host, kind) →
            metric_state d' !! (h, k) = metric_state d !! (h, k))
  ∧ metrics d' = metrics d
  ∧ ∃ new, events d' = events d ++ new
           ∧ (length new <= 1)%nat
           ∧ ∀ e, e ∈ new → Collector.host e = host.
Proof.
  intros d'. split; [apply handle_metric_status|].
  split; [intros h k Hne; by apply handle_metric_others|].
  split; [apply metrics_handle_metric | apply handle_metric_appends].
Qed.

(** X14: the three evaluations of one submission are one step of the
    table for each of cpu, mem and disk, in that order; the step of one
    kind leaves the rows of the others, and the rows of other hosts, as
    they were. *)
Theorem alerts_three_steps (clk : clock) (d : database F) (host host_ip : string)
    (cpu mem disk : F) (s_cpu s_mem s_disk : MetricTable.mstate F) :
  MetricTable.view d host "cpu" = Some s_cpu →
  MetricTable.view d host "mem" = Some s_mem →
  MetricTable.view d host "disk" = Some s_disk →
  let d' := alerts clk host host_ip cpu mem disk d in
  events d'
  = events d
    ++ map (MetricTable.record host host_ip "cpu")
           (fst (MetricTable.step CPU_TH s_cpu cpu))
    ++ map (MetricTable.record host host_ip "mem")
           (fst (MetricTable.step MEM_TH s_mem mem))
    ++ map (MetricTable.record host host_ip "disk")
           (fst (MetricTable.step DISK_TH s_disk disk))
  ∧ MetricTable.view d' host "cpu" = Some (snd (MetricTable.step CPU_TH s_cpu cpu))
  ∧ MetricTable.view d' host "mem" = Some (snd (MetricTable.step MEM_TH s_mem mem))
  ∧ MetricTable.view d' host "disk" = Some (snd (MetricTable.step DISK_TH s_disk disk))
  ∧ ∀ h k, h ≠ host → MetricTable.view d' h k = MetricTable.view d h k.
Proof.
  intros Hc Hm Hd d'. unfold d', alerts.
  set (d1 := handle_metric (utc_now clk) d host host_ip "cpu" cpu CPU_TH).
  set (d2 := handle_metric (utc_now clk) d1 host host_ip "mem" mem MEM_TH).
  destruct (handle_metric_step (utc_now clk) d host host_ip "cpu" cpu CPU_TH _ Hc)
    as [He1 Hv1]. fold d1 in He1, Hv1.
  assert (Hm1 : MetricTable.view d1 host "mem" = Some s_mem).
  { unfold d1. rewrite handle_metric_frame; [done|]. intros [=]. }
  destruct (handle_metric_step (utc_now clk) d1 host host_ip "mem" mem MEM_TH _ Hm1)
    as [He2 Hv2]. fold d2 in He2, Hv2.
  assert (Hd2 : MetricTable.view d2 host "disk" = Some s_disk).
  { unfold d2, d1. rewrite !handle_metric_frame; [done| |]; intros [=]. }
  destruct (handle_metric_step (utc_now clk) d2 host host_ip "disk" disk DISK_TH _ Hd2)
    as [He3 Hv3].
  refine (conj _ (conj _ (conj _ (conj _ _)))).
  - by rewrite He3, He2, He1, <- !app_assoc.
  - rewrite handle_metric_frame by (intros [=]). unfold d2.
    rewrite handle_metric_frame by (intros [=]). exact Hv1.
  - rewrite handle_metric_frame by (intros [=]). exact Hv2.
  - exact Hv3.
  - intros h k Hne. unfold d2, d1.
    rewrite !handle_metric_frame; [done| | |]; intros [= ? ?]; by apply Hne.
Qed.

Lemma alerts_appends clk host ip cpu mem disk (d : database F) :
  ∃ new, events (alerts clk host ip cpu mem disk d) = events d ++ new
         ∧ (length new <= 3)%nat
         ∧ ∀ e, e ∈ new → Collector.host e = host.
Proof.
  unfold alerts.
  set (d1 := handle_metric (utc_now clk) d host ip "cpu" cpu CPU_TH).
  set (d2 := handle_metric (utc_now clk) d1 host ip "mem" mem MEM_TH).
  destruct (handle_metric_appends (utc_now clk) d host ip "cpu" cpu CPU_TH)
    as (n1 & E1 & L1 & H1). fold d1 in E1.
  destruct (handle_metric_appends (utc_now clk) d1 host ip "mem" mem MEM_TH)
    as (n2 & E2 & L2 & H2). fold d2 in E2.
  destruct (handle_metric_appends (utc_now clk) d2 host ip "disk" disk DISK_TH)
    as (n3 & E3 & L3 & H3).
  exists (n1 ++ n2 ++ n3). split; [by rewrite E3, E2, E1, <- !app_assoc|].
  split; [rewrite !length_app; lia|].
  intros e He. apply elem_of_app in He as [He|He]; [by apply H1|].
  apply elem_of_app in He as [He|He]; [by apply H2 | by apply H3].
Qed.

Lemma map_event_host clk host ip (evt : json F) row :
  map_event clk host ip evt = Ok (Some row) → Collector.host row = host.
Proof.
  unfold map_event.
  destruct (get evt "type") as [ty|]; cbn [mbind exc_bind]; [|discriminate].
  destruct (or_str ty "") as [t|]; cbn [mbind exc_bind]; [|discriminate].
  destruct (negb (Py.truthy (Py.strip (Py.lower t)))); [discriminate|].
  destruct (get evt "src_ip") as [a|]; cbn [mbind exc_bind]; [|discriminate].
  destruct (or_str a "unknown") as [a'|]; cbn [mbind exc_bind]; [|discriminate].
  destruct (level_verb _) as [lv verb]. by intros [= <-].
Qed.

Lemma auth_loop_appends clk host ip (evts : list (json F)) : ∀ (d d' : database F),
  auth_loop clk host ip evts d = Ok d' →
  metrics d' = metrics d ∧ metric_state d' = metric_state d
  ∧ ∃ new, events d' = events d ++ new
           ∧ (length new <= length evts)%nat
           ∧ ∀ e, e ∈ new → Collector.host e = host.
Proof.
  induction evts as [|evt evts IH]; intros d d'; cbn [auth_loop].
  - intros [= <-]. split; [done|]. split; [done|]. exists [].
    split; [by rewrite app_nil_r|]. split; [done|]. by intros e ?%elem_of_nil.
  - destruct (map_event clk host ip evt) as [o|] eqn:Em; cbn [mbind exc_bind];
      [|discriminate].
    intros Hl. apply IH in Hl as (Hm & Hs & new & He & Hlen & Hh).
    destruct o as [row|]; cbn [insert_event metrics events metric_state] in *.
    + split; [done|]. split; [done|]. exists (row :: new).
      split; [by rewrite He, <- app_assoc|]. split; [simpl; lia|].
      intros e Hin. apply list_elem_of_In in Hin. destruct Hin as [<-|Hin].
      * by eapply map_event_host.
      * by apply Hh, list_elem_of_In.
    + split; [done|]. split; [done|]. exists new.
      split; [done|]. split; [simpl; lia | done].
Qed.

Lemma transaction_appends clk (p : submission F) (d d1 : database F) :
  transaction clk p d = Ok d1 →
  let r := match p with Nested r _ => r | Flat r _ _ => r end in
  let items := match p with
               | Nested _ auth_events => length auth_events
               | Flat _ _ _ => 1%nat
               end in
  metrics d1 = metrics d ++ [row_of r]
  ∧ ∃ new, events d1 = events d ++ new
           ∧ (length new <= 3 + items)%nat
           ∧ ∀ e, e ∈ new → Collector.host e = r_host r.
Proof.
  intros Et r items. unfold transaction in Et. unfold r, items.
  destruct p as [rd evts|rd msg lvl].
  - destruct (alerts_appends clk (r_host rd) (r_ip rd) (r_cpu rd) (r_mem rd)
                (r_disk rd) (insert_metrics d (row_of rd)))
      as (n1 & E1 & L1 & H1).
    apply auth_loop_appends in Et as (Hm & _ & n2 & E2 & L2 & H2).
    rewrite metrics_alerts in Hm. split; [done|].
    exists (n1 ++ n2). split; [by rewrite E2, E1, <- app_assoc|].
    split; [rewrite length_app; lia|].
    intros e He. apply elem_of_app in He as [He|He]; [by apply H1 | by apply H2].
  - destruct (alerts_appends clk (r_host rd) (r_ip rd) (r_cpu rd) (r_mem rd)
                (r_disk rd) (insert_metrics d (row_of rd)))
      as (n1 & E1 & L1 & H1).
    injection Et as <-.
    destruct (Py.is_set msg); cbn [insert_event metrics events].
    + rewrite metrics_alerts. split; [done|].
      eexists (n1 ++ [_]). split; [by rewrite E1, <- app_assoc|].
      split; [rewrite length_app; simpl; lia|].
      intros e He. apply elem_of_app in He as [He|He]; [by apply H1|].
      apply list_elem_of_In in He. by destruct He as [<-|[]].
    + rewrite metrics_alerts. split; [done|].
      exists n1. split; [done|]. split; [lia | done].
Qed.

(** X15: a submission is stored whole or not at all.  One that is
    accepted adds one row at the end of the metrics, its reading, and
    appends events, all filed under its host: at most three alerts of
    the thresholds and one row per auth event (one row for a flat
    submission); no stored row or event is changed or removed.  One
    that is refused or fails leaves the database as it was. *)
Theorem ingest_appends (clk : clock) (req : request F) (d : database F) :
  let r := match payload req with Nested r _ => r | Flat r _ _ => r end in
  let items := match payload req with
               | Nested _ auth_events => length auth_events
               | Flat _ _ _ => 1%nat
               end in
  let d' := snd (ingest clk req d) in
  (fst (ingest clk req d) = ok (mode_of (payload req))
   ∧ metrics d' = metrics d ++ [row_of r]
   ∧ ∃ new, events d' = events d ++ new
            ∧ (length new <= 3 + items)%nat
            ∧ ∀ e, e ∈ new → Collector.host e = r_host r)
  ∨ ((fst (ingest clk req d) = unauthorized
      ∨ fst (ingest clk req d) = server_error)
     ∧ d' = d).
Proof.
  intros r items d'. unfold d', ingest.
  destruct (negb (bool_decide (x_api_key req = Some API_KEY)));
    [right; split; [by left | done]|].
  destruct (transaction clk (payload req) d) as [d1|e] eqn:Et;
    [left | right; split; [by right | done]].
  cbn [fst snd]. split; [done|]. by apply (transaction_appends clk).
Qed.

(** *** Items that make the loop raise *)

Lemma or_str_bad (v : json F) dflt :
  Items.bad_field v = true → or_str v dflt = Raise AttributeError.
Proof.
  unfold Items.bad_field, or_str. intros Hb.
  apply andb_true_iff in Hb as [-> Hs]. by destruct v.
Qed.

Lemma or_str_good (v : json F) dflt :
  Items.bad_field v = false →
  or_str v dflt
  = Ok (match v with JStr s => if Py.truthy s then s else dflt | _ => dflt end).
Proof.
  unfold Items.bad_field, or_str.
  destruct v; cbn [truthy]; rewrite ?andb_true_r, ?andb_false_r;
    try (by intros ->); try done.
  intros _. by destruct (Py.truthy s).
Qed.

Lemma map_event_malformed clk host ip (evt : json F) :
  (Items.malformed evt = true → ∃ e, map_event clk host ip evt = Raise e)
  ∧ (Items.malformed evt = false → ∃ o, map_event clk host ip evt = Ok o).
Proof.
  unfold map_event, get, Items.malformed.
  destruct evt as [|b|z|f|s|l|items]; cbn [mbind exc_bind];
    try (split; [by eexists | discriminate]).
  set (tv := default JNull (lookup_item "type" items)).
  set (iv := default JNull (lookup_item "src_ip" items)).
  destruct (Items.bad_field tv) eqn:Bt.
  - rewrite (or_str_bad tv) by done. cbn [orb mbind exc_bind].
    split; [by eexists | discriminate].
  - rewrite (or_str_good tv) by done. cbn [orb mbind exc_bind].
    destruct tv as [|b|z|f|s|l|its];
      try (split; [discriminate | by eexists]).
    destruct (Py.truthy s) eqn:Es.
    + destruct (Py.truthy (Py.strip (Py.lower s))) eqn:Et; cbn [negb andb].
      * destruct (Items.bad_field iv) eqn:Bi.
        -- rewrite (or_str_bad iv) by done. cbn [mbind exc_bind].
           split; [by eexists | discriminate].
        -- rewrite (or_str_good iv) by done. cbn [mbind exc_bind].
           destruct (level_verb _) as [lv verb].
           split; [discriminate | by eexists].
      * split; [discriminate | by eexists].
    + destruct s; [|discriminate]. split; [discriminate | by eexists].
Qed.

(** X19: in a nested submission, an auth event that is no object, or
    whose type is true and no string, or whose type is not blank and
    whose src_ip is true and no string, makes the whole submission
    fail: the answer is the server error and nothing is stored.  With no
    such item the submission is accepted. *)
Theorem malformed_item_fails (clk : clock) (r : reading F)
    (auth_events : list (json F)) (d : database F) :
  let req := {| x_api_key := Some API_KEY; payload := Nested r auth_events |} in
  ((∃ evt, evt ∈ auth_events ∧ Items.malformed evt = true) →
   ingest clk req d = (server_error, d))
  ∧ ((∀ evt, evt ∈ auth_events → Items.malformed evt = false) →
     fst (ingest clk req d) = ok "meta").
Proof.
  intros req. unfold req, ingest. cbn [x_api_key payload].
  rewrite bool_decide_eq_true_2 by reflexivity. cbn [negb transaction].
  set (d1 := alerts _ _ _ _ _ _ _). split.
  - intros (evt & Hin & Hbad).
    destruct (auth_loop_raise clk (r_host r) (r_ip r) auth_events d1) as [e He].
    { exists evt. split; [done|]. by apply map_event_malformed. }
    by rewrite He.
  - intros Hall. rewrite auth_loop_ok; [done|].
    intros evt Hin. by apply map_event_malformed, Hall.
Qed.

(** *** The host list *)

Lemma max_id_row_none host (rows : list (metrics_row F)) :
  Dashboard.max_id_row host rows = None → ∀ r, r ∈ rows → m_host r ≠ host.
Proof.
  induction rows as [|x rows IH]; cbn [Dashboard.max_id_row];
    [by intros _ r ?%elem_of_nil|].
  destruct (Dashboard.max_id_row host rows); [discriminate|].
  destruct (String.eqb (m_host x) host) eqn:E; [discriminate|].
  intros _ r Hr. apply list_elem_of_In in Hr. destruct Hr as [<-|Hr].
  - by apply String.eqb_neq.
  - by apply IH, list_elem_of_In.
Qed.

Lemma max_id_row_some host (rows : list (metrics_row F)) r :
  Dashboard.max_id_row host rows = Some r →
  m_host r = host
  ∧ ∃ before after, rows = before ++ r :: after
                    ∧ ∀ r', r' ∈ after → m_host r' ≠ host.
Proof.
  induction rows as [|x rows IH]; cbn [Dashboard.max_id_row]; [discriminate|].
  destruct (Dashboard.max_id_row host rows) as [r'|] eqn:Em.
  - intros [= <-]. destruct (IH eq_refl) as (Hh & before & after & -> & Hafter).
    split; [done|]. by exists (x :: before), after.
  - destruct (String.eqb (m_host x) host) eqn:E; [|discriminate].
    intros [= <-]. apply String.eqb_eq in E. split; [done|].
    exists [], rows. split; [done|]. by apply max_id_row_none.
Qed.

Lemma max_id_row_is_some host (rows : list (metrics_row F)) :
  host ∈ map m_host rows → is_Some (Dashboard.max_id_row host rows).
Proof.
  induction rows as [|x rows IH]; cbn [map Dashboard.max_id_row];
    [by intros ?%elem_of_nil|].
  intros Hin. destruct (Dashboard.max_id_row host rows) as [r|] eqn:Em; [by eexists|].
  apply list_elem_of_In in Hin. destruct Hin as [<-|Hin].
  - rewrite String.eqb_refl. by eexists.
  - apply list_elem_of_In, IH in Hin. by destruct Hin.
Qed.

Lemma max_id_row_last host (rows : list (metrics_row F)) r :
  m_host r = host → Dashboard.max_id_row host (rows ++ [r]) = Some r.
Proof.
  intros <-. induction rows as [|x rows IH]; cbn [app Dashboard.max_id_row].
  - by rewrite String.eqb_refl.
  - by rewrite IH.
Qed.

Lemma elem_of_groups (rows : list (metrics_row F)) h :
  h ∈ Dashboard.groups rows ↔ h ∈ map m_host rows.
Proof.
  unfold Dashboard.groups.
  rewrite (merge_sort_Permutation String.le), elem_of_remove_dups. done.
Qed.

Lemma omap_hosts (rows : list (metrics_row F)) (hosts : list string) :
  (∀ h, h ∈ hosts → h ∈ map m_host rows) →
  map m_host (omap (λ host, Dashboard.max_id_row host rows) hosts) = hosts.
Proof.
  induction hosts as [|h hosts IH]; intros Hall; cbn [omap list_omap]; [done|].
  destruct (max_id_row_is_some h rows) as [r Hr]; [apply Hall, list_elem_of_here|].
  rewrite Hr. cbn [map]. destruct (max_id_row_some _ _ _ Hr) as [-> _].
  f_equal. apply IH. intros h' Hh'. by apply Hall, list_elem_of_further.
Qed.

Lemma fetch_hosts_groups (d : database F) :
  map m_host (Dashboard.fetch_hosts d) = Dashboard.groups (metrics d).
Proof.
  unfold Dashboard.fetch_hosts. apply omap_hosts.
  intros h. by rewrite elem_of_groups.
Qed.

(** X16: the host list has one row for each host that ever submitted
    and none else, in the order of the host names; the row of a host is
    its last one in the table, the one with the greatest id. *)
Theorem fetch_hosts_latest (d : database F) :
  let out := Dashboard.fetch_hosts d in
  StronglySorted String.le (map m_host out)
  ∧ NoDup (map m_host out)
  ∧ (∀ h, h ∈ map m_host out ↔ h ∈ map m_host (metrics d))
  ∧ ∀ r, r ∈ out →
      ∃ before after, metrics d = before ++ r :: after
                      ∧ ∀ r', r' ∈ after → m_host r' ≠ m_host r.
Proof.
  intros out. unfold out. rewrite fetch_hosts_groups.
  refine (conj _ (conj _ (conj _ _))).
  - apply (StronglySorted_merge_sort String.le).
  - unfold Dashboard.groups. rewrite (merge_sort_Permutation String.le).
    apply NoDup_remove_dups.
  - intros h. apply elem_of_groups.
  - intros r Hr. unfold Dashboard.fetch_hosts in Hr.
    apply list_elem_of_omap in Hr as (h & _ & Hr).
    apply max_id_row_some in Hr as (<- & before & after & Hrows & Hafter).
    by exists before, after.
Qed.

(** X17: once a submission is accepted, the host list shows its
    reading as the row of its host, and no other row for that host. *)
Theorem ingest_then_fetch (clk : clock) (req : request F) (d d' : database F)
    (mode : string) :
  ingest clk req d = (ok mode, d') →
  let r := match payload req with Nested r _ => r | Flat r _ _ => r end in
  row_of r ∈ Dashboard.fetch_hosts d'
  ∧ ∀ r', r' ∈ Dashboard.fetch_hosts d' → m_host r' = r_host r → r' = row_of r.
Proof.
  unfold ingest.
  destruct (negb (bool_decide (x_api_key req = Some API_KEY))); [discriminate|].
  destruct (transaction clk (payload req) d) as [d1|e] eqn:Et; [|discriminate].
  intros [= _ <-].
  set (r := match payload req with Nested r _ => r | Flat r _ _ => r end).
  destruct (transaction_appends clk _ _ _ Et) as [Hm _]. fold r in Hm.
  assert (Hlast : Dashboard.max_id_row (r_host r) (metrics d1) = Some (row_of r)).
  { rewrite Hm. by apply max_id_row_last. }
  split.
  - unfold Dashboard.fetch_hosts. apply list_elem_of_omap. exists (r_host r).
    split; [|done]. apply elem_of_groups. rewrite Hm, map_app.
    apply elem_of_app. right. apply list_elem_of_here.
  - intros r' Hr' Hhost. unfold Dashboard.fetch_hosts in Hr'.
    apply list_elem_of_omap in Hr' as (h & _ & Hr').
    destruct (max_id_row_some _ _ _ Hr') as [Hh _].
    rewrite <- Hh, Hhost, Hlast in Hr'. by injection Hr' as <-.
Qed.

End CollectorMore.

Section CollectorMoreWitnesses.

Import Collector QFloat Samples.

Lemma alerts_three_steps_witness :
  events (alerts noon "web1" "10.10.1.5" (90 # 1) (40 # 1) (55 # 1) empty_db)
  = events empty_db
    ++ map (MetricTable.record "web1" "10.10.1.5" "cpu")
           (fst (MetricTable.step CPU_TH MetricTable.Absent (90 # 1)))
    ++ map (MetricTable.record "web1" "10.10.1.5" "mem")
           (fst (MetricTable.step MEM_TH MetricTable.Absent (40 # 1)))
    ++ map (MetricTable.record "web1" "10.10.1.5" "disk")
           (fst (MetricTable.step DISK_TH MetricTable.Absent (55 # 1))).
Proof.
  apply (alerts_three_steps noon empty_db "web1" "10.10.1.5"
           (90 # 1) (40 # 1) (55 # 1)
           MetricTable.Absent MetricTable.Absent MetricTable.Absent);
    reflexivity.
Defined.

Lemma ingest_then_fetch_witness :
  row_of busy
  ∈ Dashboard.fetch_hosts
      (snd (ingest noon {| x_api_key := Some API_KEY; payload := Nested busy [] |}
              empty_db)).
Proof.
  apply (ingest_then_fetch noon
           {| x_api_key := Some API_KEY; payload := Nested busy [] |}
           empty_db _ "meta").
  reflexivity.
Defined.

Lemma malformed_item_fails_witness :
  ingest noon {| x_api_key := Some API_KEY; payload := Nested busy [ JInt 7 ] |}
    empty_db
  = (server_error, empty_db).
Proof.
  destruct (malformed_item_fails noon busy [ JInt 7 ] empty_db) as [Hbad _].
  apply Hbad. exists (JInt 7). split; [apply list_elem_of_here | reflexivity].
Defined.

End CollectorMoreWitnesses.
